(** * BTCSignal: the cache and the timeframe aggregation of [data_fetcher.py]

    A shallow embedding of [src/data_fetcher.py] and the properties of its
    cache store, its OHLCV aggregation and its facade.

    Conventions of the embedding.
    - Python [int] is [Z]. The prices [aggregate_to_timeframe] receives are
      Python [float]s, modelled by [pyfloat]: a finite number, an infinity or
      NaN, with the comparisons of Python. The numbers of a JSON document and
      [time.time()] are [Q]: the code copies them and divides a time
      difference by sixty, it never rounds them.
    - Python [str] is [string], read as the UTF-8 bytes of the text, so that
      [key.encode()] is the list of the characters' codes.
    - A JSON document ([json.load] / [json.dump], the bodies of the upstream
      answers, the cached payloads) is a value of [json]; [None] is [JNull].
    - The module has three effects: the module-level logger, the files of the
      cache directory and the clock. They are the fields of [World], threaded
      by the monad [M], whose computations may also raise.
    - Upstream services, the clock and the rendering of dates are
      collaborators of the module: they are the variables of Section
      [Fetching]. *)

From Stdlib Require Import ZArith QArith Lqa Lia Sorted Permutation.
From stdpp Require Import gmap strings pretty.

Open Scope Z_scope.
Set Warnings "-register-all".


(** ** JSON values and the dynamic operations the module applies to them *)

Inductive json : Type :=
| JNull
| JBool (b : bool)
| JNum (q : Q)
| JStr (s : string)
| JList (l : list json)
| JDict (d : list (string * json)).

(** Exceptions, by the classes the module's [except] clauses tell apart:
    [requests.exceptions.RequestException] and everything else. *)
Inductive exn : Type :=
| RequestException
| AttributeError
| TypeError
| ValueError
| IndexError
| KeyError
| OSError.

Definition str_exn (e : exn) : string :=
  match e with
  | RequestException => "RequestException"
  | AttributeError => "AttributeError"
  | TypeError => "TypeError"
  | ValueError => "ValueError"
  | IndexError => "IndexError"
  | KeyError => "KeyError"
  | OSError => "OSError"
  end.

Inductive result (A : Type) : Type :=
| Ok (a : A)
| Raise (e : exn).
Arguments Ok {A} a.
Arguments Raise {A} e.

(** Lookup in the entries of a dictionary. *)
Fixpoint assoc {A : Type} (k : string) (d : list (string * A)) : option A :=
  match d with
  | [] => None
  | (k', v) :: d' => if String.eqb k k' then Some v else assoc k d'
  end.

(** [x.get(k, default)]: defined on dictionaries only. *)
Definition py_get (x : json) (k : string) (default : json) : result json :=
  match x with
  | JDict d => Ok (match assoc k d with Some v => v | None => default end)
  | _ => Raise AttributeError
  end.

(** Truth value of a JSON value, as tested by [if cached:]. *)
Definition truthy (x : json) : bool :=
  match x with
  | JNull => false
  | JBool b => b
  | JNum q => negb (Qeq_bool q 0)
  | JStr s => negb (String.eqb s "")
  | JList l => match l with [] => false | _ => true end
  | JDict d => match d with [] => false | _ => true end
  end.

(** The number a JSON value stands for in arithmetic ([bool] is a subtype of
    [int]); the other values raise [TypeError]. *)
Definition py_number (x : json) : result Q :=
  match x with
  | JNum q => Ok q
  | JBool b => Ok (if b then 1%Q else 0%Q)
  | _ => Raise TypeError
  end.

(** The elements a [for] loop draws from a JSON value. *)
Definition py_iter (x : json) : result (list json) :=
  match x with
  | JList l => Ok l
  | JDict d => Ok (map (fun kv => JStr (fst kv)) d)
  | JStr s => Ok (map (fun c => JStr (String c EmptyString)) (String.list_ascii_of_string s))
  | _ => Raise TypeError
  end.

(** [len(x)]. *)
Definition py_len (x : json) : result nat :=
  match x with
  | JList l => Ok (length l)
  | JDict d => Ok (length d)
  | JStr s => Ok (String.length s)
  | _ => Raise TypeError
  end.

(** [x[i]] for a position [i]. *)
Definition py_index (x : json) (i : nat) : result json :=
  match x with
  | JList l => match nth_error l i with Some v => Ok v | None => Raise IndexError end
  | JStr s => match String.get i s with
              | Some c => Ok (JStr (String c EmptyString))
              | None => Raise IndexError
              end
  | JDict _ => Raise KeyError
  | _ => Raise TypeError
  end.

(** The target [(timestamp, price)] of the loop unpacks a two-element value. *)
Definition py_unpack2 (x : json) : result (json * json) :=
  match py_iter x with
  | Ok [a; b] => Ok (a, b)
  | Ok _ => Raise ValueError
  | Raise e => Raise e
  end.

(** ** The effects of the module *)

Inductive level : Type := INFO | WARNING | ERROR.

(** A file of the cache directory: a JSON document, or bytes [json.load]
    rejects. *)
Inductive file : Type :=
| Document (j : json)
| Garbage.

(** A request sent upstream: the URL and the query parameters. *)
Definition request : Type := string * list (string * json).

Record World : Type := mkWorld {
  files : gmap string file;      (* the file system, by path *)
  logs : list (level * string);  (* records emitted by [logger], oldest first *)
  requests : list request;       (* requests sent upstream, oldest first *)
  ticks : nat                    (* calls made to the collaborators so far *)
}.

Definition M (A : Type) : Type := World -> result A * World.

Definition ret {A} (a : A) : M A := fun w => (Ok a, w).

Definition bind {A B} (m : M A) (k : A -> M B) : M B :=
  fun w => match m w with
           | (Ok a, w') => k a w'
           | (Raise e, w') => (Raise e, w')
           end.

Definition raise {A} (e : exn) : M A := fun w => (Raise e, w).

(** [try: m except <class> as e: handler e]; [catches] selects the class. *)
Definition try_except {A} (m : M A) (catches : exn -> bool) (handler : exn -> M A) : M A :=
  fun w => match m w with
           | (Raise e, w') => if catches e then handler e w' else (Raise e, w')
           | r => r
           end.

Definition lift {A} (r : result A) : M A := fun w => (r, w).

Declare Scope monad_scope.
Delimit Scope monad_scope with M.
Notation "x <- m ;; k" := (bind m (fun x => k))
  (at level 100, m at next level, right associativity) : monad_scope.
Notation "m ;;; k" := (bind m (fun _ => k))
  (at level 100, right associativity) : monad_scope.
Open Scope monad_scope.

(** The value and the final world of a computation. *)
Definition eval {A} (m : M A) (w : World) : result A := fst (m w).
Definition exec {A} (m : M A) (w : World) : World := snd (m w).

Definition log (l : level) (msg : string) : M unit :=
  fun w => (Ok tt, mkWorld (files w) (logs w ++ [(l, msg)]) (requests w) (ticks w)).

(** [logger.info], [logger.warning], [logger.error]. *)
Definition logger_info := log INFO.
Definition logger_warning := log WARNING.
Definition logger_error := log ERROR.

(** The two [except] classes of the module. *)
Definition is_RequestException (e : exn) : bool :=
  match e with RequestException => true | _ => false end.
Definition is_Exception (_ : exn) : bool := true.

(** ** Configuration *)

Definition CACHE_DIR : string := "cache".
Definition CACHE_EXPIRY_MINUTES : Q := 5.

Definition TIMEFRAMES : list (string * Z) :=
  [ ("1m", 1); ("5m", 5); ("15m", 15); ("30m", 30); ("1h", 60);
    ("4h", 240); ("1d", 1440); ("7d", 10080); ("30d", 43200) ].

(** ** The OHLCV aggregator: [TimeframeDataHandler.aggregate_to_timeframe] *)

(** A Python [float]: a finite number, an infinity, or NaN. *)
Inductive pyfloat : Type :=
| Finite (q : Q)
| PosInf
| NegInf
| NaN.

(** [a < b] on floats: false as soon as one side is NaN. *)
Definition float_ltb (a b : pyfloat) : bool :=
  match a, b with
  | NaN, _ | _, NaN => false
  | Finite x, Finite y => negb (Qle_bool y x)
  | NegInf, NegInf => false
  | NegInf, _ => true
  | _, NegInf => false
  | PosInf, _ => false
  | Finite _, PosInf => true
  end.

(** [a <= b] on floats: false as soon as one side is NaN. *)
Definition float_leb (a b : pyfloat) : bool :=
  match a, b with
  | NaN, _ | _, NaN => false
  | Finite x, Finite y => Qle_bool x y
  | NegInf, _ => true
  | _, PosInf => true
  | PosInf, _ => false
  | Finite _, NegInf => false
  end.

Definition float_le (a b : pyfloat) : Prop := float_leb a b = true.

(** [a == b] on floats. *)
Definition float_eq (a b : pyfloat) : Prop := float_le a b /\ float_le b a.

(** The dictionary built for a bucket. *)
Record candle : Type := mkCandle {
  timestamp : Z;
  open : pyfloat;
  high : pyfloat;
  low : pyfloat;
  close : pyfloat;
  volume : Z;
  count : Z
}.

(** [max(a, b)] and [min(a, b)]: [b] replaces [a] when [b > a], respectively
    [b < a], holds; the first argument wins a tie and every comparison with
    NaN. *)
Definition py_max (a b : pyfloat) : pyfloat := if float_ltb a b then b else a.
Definition py_min (a b : pyfloat) : pyfloat := if float_ltb b a then b else a.

(** [aggregated]: a dictionary keeps its keys in the order of insertion. *)
Fixpoint dict_lookup (k : Z) (d : list (Z * candle)) : option candle :=
  match d with
  | [] => None
  | (k', c) :: d' => if Z.eqb k k' then Some c else dict_lookup k d'
  end.

(** Mutation of the value stored under a key that is present. *)
Fixpoint dict_alter (f : candle -> candle) (k : Z) (d : list (Z * candle))
  : list (Z * candle) :=
  match d with
  | [] => []
  | (k', c) :: d' =>
      if Z.eqb k k' then (k', f c) :: d' else (k', c) :: dict_alter f k d'
  end.

(** [aggregated[bucket] = c] for a key that is absent. *)
Definition dict_add (k : Z) (c : candle) (d : list (Z * candle)) : list (Z * candle) :=
  d ++ [(k, c)].

Definition dict_values (d : list (Z * candle)) : list candle := map snd d.

(** Round a timestamp down to the boundary of its bucket. *)
Definition bucket_of (timeframe_seconds : Z) (ts : Z) : Z :=
  (ts / timeframe_seconds) * timeframe_seconds.

Definition set_count (n : Z) (c : candle) : candle :=
  mkCandle (timestamp c) (open c) (high c) (low c) (close c) (volume c) n.

(** The body of the loop, for one point. *)
Definition aggregate_step (timeframe_seconds : Z)
    (aggregated : list (Z * candle)) (p : Z * pyfloat) : list (Z * candle) :=
  let '(ts, price) := p in
  let bucket := bucket_of timeframe_seconds ts in
  let aggregated :=
    match dict_lookup bucket aggregated with
    | None => dict_add bucket (mkCandle bucket price price price price 0 0) aggregated
    | Some _ =>
        dict_alter (fun c => mkCandle (timestamp c) (open c) (py_max (high c) price)
                                      (py_min (low c) price) price (volume c) (count c))
                   bucket aggregated
    end in
  dict_alter (fun c => set_count (count c + 1) c) bucket aggregated.

Definition aggregate_loop (timeframe_seconds : Z) (prices : list (Z * pyfloat))
  : list (Z * candle) :=
  fold_left (aggregate_step timeframe_seconds) prices [].

(** [sorted(xs, key=lambda x: x["timestamp"])]: the stable sort by key. *)
Fixpoint sorted_insert (x : candle) (l : list candle) : list candle :=
  match l with
  | [] => [x]
  | y :: l' =>
      if Z.leb (timestamp x) (timestamp y) then x :: y :: l'
      else y :: sorted_insert x l'
  end.

Definition sorted (l : list candle) : list candle := fold_right sorted_insert [] l.

(** The order [sorted] arranges candles in. *)
Definition by_timestamp (a b : candle) : Prop := timestamp a <= timestamp b.

Definition aggregate_to_timeframe (prices : list (Z * pyfloat)) (timeframe : string)
  : M (list candle) :=
  match assoc timeframe TIMEFRAMES with
  | None =>
      logger_error ("Invalid timeframe: " +:+ timeframe) ;;;
      ret []
  | Some timeframe_minutes =>
      let timeframe_seconds := timeframe_minutes * 60 in
      let aggregated := aggregate_loop timeframe_seconds prices in
      ret (sorted (dict_values aggregated))
  end.

(** The points of [prices] that fall into the bucket starting at [k], in the
    order of the input. *)
Definition bucket_points (timeframe_seconds k : Z) (prices : list (Z * pyfloat))
  : list (Z * pyfloat) :=
  List.filter (fun p => Z.eqb (bucket_of timeframe_seconds (fst p)) k) prices.

(** The candle the loop holds for bucket [k] once [prices] is consumed,
    written as a function of the bucket's points. *)
Definition summary (timeframe_seconds k : Z) (prices : list (Z * pyfloat)) : option candle :=
  match bucket_points timeframe_seconds k prices with
  | [] => None
  | (_, p0) :: rest =>
      Some (mkCandle k p0
              (fold_left py_max (map snd rest) p0)
              (fold_left py_min (map snd rest) p0)
              (List.last (map snd rest) p0)
              0
              (Z.of_nat (length ((k, p0) :: rest))))
  end.

(** ** [hashlib.md5(data).hexdigest()], after RFC 1321 *)

Module MD5.

(** Words are 32-bit integers, kept in the range of [2^32]. *)
Definition wrap (x : Z) : Z := x mod 2 ^ 32.
Definition add32 (x y : Z) : Z := wrap (x + y).
Definition not32 (x : Z) : Z := Z.lxor x 0xffffffff.
Definition rotl32 (x n : Z) : Z :=
  Z.lor (wrap (Z.shiftl x n)) (Z.shiftr x (32 - n)).

(** The per-round shift amounts. *)
Definition S : list Z :=
  [ 7; 12; 17; 22; 7; 12; 17; 22; 7; 12; 17; 22; 7; 12; 17; 22;
    5; 9; 14; 20; 5; 9; 14; 20; 5; 9; 14; 20; 5; 9; 14; 20;
    4; 11; 16; 23; 4; 11; 16; 23; 4; 11; 16; 23; 4; 11; 16; 23;
    6; 10; 15; 21; 6; 10; 15; 21; 6; 10; 15; 21; 6; 10; 15; 21 ].

(** [K[i] = floor(2^32 * abs(sin(i + 1)))]. *)
Definition K : list Z :=
  [ 0xd76aa478; 0xe8c7b756; 0x242070db; 0xc1bdceee;
    0xf57c0faf; 0x4787c62a; 0xa8304613; 0xfd469501;
    0x698098d8; 0x8b44f7af; 0xffff5bb1; 0x895cd7be;
    0x6b901122; 0xfd987193; 0xa679438e; 0x49b40821;
    0xf61e2562; 0xc040b340; 0x265e5a51; 0xe9b6c7aa;
    0xd62f105d; 0x02441453; 0xd8a1e681; 0xe7d3fbc8;
    0x21e1cde6; 0xc33707d6; 0xf4d50d87; 0x455a14ed;
    0xa9e3e905; 0xfcefa3f8; 0x676f02d9; 0x8d2a4c8a;
    0xfffa3942; 0x8771f681; 0x6d9d6122; 0xfde5380c;
    0xa4beea44; 0x4bdecfa9; 0xf6bb4b60; 0xbebfbc70;
    0x289b7ec6; 0xeaa127fa; 0xd4ef3085; 0x04881d05;
    0xd9d4d039; 0xe6db99e5; 0x1fa27cf8; 0xc4ac5665;
    0xf4292244; 0x432aff97; 0xab9423a7; 0xfc93a039;
    0x655b59c3; 0x8f0ccc92; 0xffeff47d; 0x85845dd1;
    0x6fa87e4f; 0xfe2ce6e0; 0xa3014314; 0x4e0811a1;
    0xf7537e82; 0xbd3af235; 0x2ad7d2bb; 0xeb86d391 ].

Record state : Type := mkState { sA : Z; sB : Z; sC : Z; sD : Z }.

Definition init : state :=
  mkState 0x67452301 0xefcdab89 0x98badcfe 0x10325476.

(** The bytes of [n], least significant first, [len] of them. *)
Fixpoint le_bytes (len : nat) (n : Z) : list Z :=
  match len with
  | O => []
  | Datatypes.S len' => (n mod 256) :: le_bytes len' (n / 256)
  end.

(** Padding: a one bit, zeros up to 56 modulo 64, the bit length on 64
    bits. *)
Definition pad (msg : list Z) : list Z :=
  let len := Z.of_nat (length msg) in
  msg ++ [0x80] ++ repeat 0 (Z.to_nat ((55 - len) mod 64))
      ++ le_bytes 8 ((8 * len) mod 2 ^ 64).

(** Little-endian words of a byte sequence. *)
Fixpoint le_words (bs : list Z) : list Z :=
  match bs with
  | b0 :: b1 :: b2 :: b3 :: rest =>
      (b0 + 2 ^ 8 * b1 + 2 ^ 16 * b2 + 2 ^ 24 * b3) :: le_words rest
  | _ => []
  end.

Definition round (M : list Z) (st : state) (i : Z) : state :=
  let '(mkState a b c d) := st in
  let '(f, g) :=
    if i <? 16 then (Z.lor (Z.land b c) (Z.land (not32 b) d), i)
    else if i <? 32 then (Z.lor (Z.land d b) (Z.land (not32 d) c), (5 * i + 1) mod 16)
    else if i <? 48 then (Z.lxor (Z.lxor b c) d, (3 * i + 5) mod 16)
    else (Z.lxor c (Z.lor b (not32 d)), (7 * i) mod 16) in
  let f := add32 (add32 (add32 f a) (nth (Z.to_nat i) K 0)) (nth (Z.to_nat g) M 0) in
  mkState d (add32 b (rotl32 f (nth (Z.to_nat i) S 0))) b c.

(** One 16-word block. *)
Definition block (st : state) (M : list Z) : state :=
  let st' := fold_left (round M) (map Z.of_nat (seq 0 64)) st in
  mkState (add32 (sA st) (sA st')) (add32 (sB st) (sB st'))
          (add32 (sC st) (sC st')) (add32 (sD st) (sD st')).

Fixpoint blocks (n : nat) (st : state) (ws : list Z) : state :=
  match n with
  | O => st
  | Datatypes.S n' => blocks n' (block st (firstn 16 ws)) (skipn 16 ws)
  end.

Definition digest (msg : list Z) : list Z :=
  let ws := le_words (pad msg) in
  let st := blocks (Nat.div (length ws) 16) init ws in
  le_bytes 4 (sA st) ++ le_bytes 4 (sB st) ++ le_bytes 4 (sC st) ++ le_bytes 4 (sD st).

Definition hex_digit (n : Z) : Ascii.ascii :=
  nth (Z.to_nat n) (String.list_ascii_of_string "0123456789abcdef") Ascii.zero.

Fixpoint hex (bs : list Z) : string :=
  match bs with
  | [] => EmptyString
  | b :: bs' => String (hex_digit (b / 16)) (String (hex_digit (b mod 16)) (hex bs'))
  end.

(** [s.encode()]: the bytes of the text. *)
Definition encode (s : string) : list Z :=
  map (fun c => Z.of_N (Ascii.N_of_ascii c)) (String.list_ascii_of_string s).

Definition hexdigest (s : string) : string := hex (digest (encode s)).

End MD5.

(** ** The cache store and the fetchers *)

Definition COINGECKO_BASE_URL : string := "https://api.coingecko.com/api/v3".
Definition COINMARKETCAP_BASE_URL : string := "https://pro-api.coinmarketcap.com/v1".

(** [class DataCache]: an instance is its directory. *)
Record DataCache : Type := mkDataCache { cache_dir : string }.

(** The module-level instance [cache = DataCache()]. *)
Definition cache : DataCache := mkDataCache CACHE_DIR.

Definition _get_cache_path (self : DataCache) (key : string) : string :=
  let hash_key := MD5.hexdigest key in
  cache_dir self +:+ "/" +:+ hash_key +:+ ".json".

(** [path.exists()]. *)
Definition path_exists (path : string) : M bool :=
  fun w => (Ok (match files w !! path with Some _ => true | None => false end), w).

(** [with open(path, 'r') as f: json.load(f)]. *)
Definition json_load (path : string) : M json :=
  fun w => match files w !! path with
           | Some (Document j) => (Ok j, w)
           | Some Garbage => (Raise ValueError, w)
           | None => (Raise OSError, w)
           end.

(** [with open(path, 'w') as f: json.dump(j, f)]. *)
Definition json_dump (j : json) (path : string) : M unit :=
  fun w => (Ok tt, mkWorld (<[path := Document j]> (files w)) (logs w) (requests w) (ticks w)).

Definition tick (w : World) : World :=
  mkWorld (files w) (logs w) (requests w) (S (ticks w)).

(** The entry [set] writes at time [now]. *)
Definition cache_entry (now : Q) (data : json) : json :=
  JDict [("timestamp", JNum now); ("data", data)].

Section Fetching.

(** The collaborators. [clock n] is what [time.time()] returns and
    [utcnow n] what [datetime.utcnow().isoformat()] returns when it is the
    [n]-th call made to a collaborator; [fromtimestamp t] is
    [datetime.fromtimestamp(t).isoformat()], which raises outside the range
    of dates; the two [*_http] answer a request with the decoded JSON body,
    or with [None] where [session.get], [raise_for_status] or
    [response.json] raises a [RequestException]. *)
Variable clock : nat -> Q.
Variable utcnow : nat -> string.
Variable fromtimestamp : Q -> result string.
Variable coingecko_http : nat -> request -> option json.
Variable coinmarketcap_http : nat -> request -> option json.

Definition time_time : M Q := fun w => (Ok (clock (ticks w)), tick w).

Definition datetime_utcnow_isoformat : M string :=
  fun w => (Ok (utcnow (ticks w)), tick w).

(** [response = session.get(url, params=params, timeout=10)],
    [response.raise_for_status()], [response.json()]. *)
Definition session_get (http : nat -> request -> option json)
    (url : string) (params : list (string * json)) : M json :=
  fun w =>
    let w' := mkWorld (files w) (logs w) (requests w ++ [(url, params)]) (S (ticks w)) in
    match http (ticks w) (url, params) with
    | Some body => (Ok body, w')
    | None => (Raise RequestException, w')
    end.

(** [DataCache.get] *)
Definition DataCache_get (self : DataCache) (key : string) : M json :=
  let cache_path := _get_cache_path self key in
  present <- path_exists cache_path ;;
  if negb present then ret JNull
  else
    try_except
      (cached_data <- json_load cache_path ;;
       timestamp <- lift (py_get cached_data "timestamp" (JNum 0)) ;;
       now <- time_time ;;
       stored <- lift (py_number timestamp) ;;
       let age_minutes := ((now - stored) / 60)%Q in
       if Qlt_le_dec age_minutes CACHE_EXPIRY_MINUTES then
         logger_info ("Cache hit for key: " +:+ key) ;;;
         lift (py_get cached_data "data" JNull)
       else
         logger_info ("Cache expired for key: " +:+ key) ;;;
         ret JNull)
      is_Exception
      (fun e => logger_warning ("Error reading cache: " +:+ str_exn e) ;;; ret JNull).

(** [DataCache.set] *)
Definition DataCache_set (self : DataCache) (key : string) (data : json) : M unit :=
  let cache_path := _get_cache_path self key in
  try_except
    (now <- time_time ;;
     let cache_data := cache_entry now data in
     json_dump cache_data cache_path ;;;
     logger_info ("Cached data for key: " +:+ key))
    is_Exception
    (fun e => logger_warning ("Error writing cache: " +:+ str_exn e)).

(** [CoinGeckoFetcher.get_current_price] *)
Definition CoinGeckoFetcher_get_current_price : M json :=
  let cache_key := "coingecko_current_price" in
  cached <- DataCache_get cache cache_key ;;
  if truthy cached then ret cached
  else
    try_except
      (let url := COINGECKO_BASE_URL +:+ "/simple/price" in
       let params := [ ("ids", JStr "bitcoin");
                       ("vs_currencies", JStr "usd,eur,gbp");
                       ("include_market_cap", JStr "true");
                       ("include_24hr_vol", JStr "true");
                       ("include_24hr_change", JStr "true") ] in
       data <- session_get coingecko_http url params ;;
       stamp <- datetime_utcnow_isoformat ;;
       bitcoin <- lift (py_get data "bitcoin" (JDict [])) ;;
       let result := JDict [ ("source", JStr "coingecko");
                             ("timestamp", JStr stamp);
                             ("data", bitcoin) ] in
       DataCache_set cache cache_key result ;;;
       logger_info "Successfully fetched current price from CoinGecko" ;;;
       ret result)
      is_RequestException
      (fun e => logger_error ("Error fetching from CoinGecko: " +:+ str_exn e) ;;;
                ret JNull).

(** [CoinGeckoFetcher.get_market_data] *)
Definition CoinGeckoFetcher_get_market_data : M json :=
  let cache_key := "coingecko_market_data" in
  cached <- DataCache_get cache cache_key ;;
  if truthy cached then ret cached
  else
    try_except
      (let url := COINGECKO_BASE_URL +:+ "/coins/bitcoin" in
       let params := [ ("localization", JStr "false");
                       ("tickers", JStr "false");
                       ("market_data", JStr "true");
                       ("community_data", JStr "false");
                       ("developer_data", JStr "false") ] in
       data <- session_get coingecko_http url params ;;
       stamp <- datetime_utcnow_isoformat ;;
       id <- lift (py_get data "id" JNull) ;;
       symbol <- lift (py_get data "symbol" JNull) ;;
       name <- lift (py_get data "name" JNull) ;;
       market_data <- lift (py_get data "market_data" (JDict [])) ;;
       let result := JDict [ ("source", JStr "coingecko");
                             ("timestamp", JStr stamp);
                             ("data", JDict [ ("id", id);
                                              ("symbol", symbol);
                                              ("name", name);
                                              ("market_data", market_data) ]) ] in
       DataCache_set cache cache_key result ;;;
       logger_info "Successfully fetched market data from CoinGecko" ;;;
       ret result)
      is_RequestException
      (fun e => logger_error ("Error fetching market data from CoinGecko: " +:+ str_exn e) ;;;
                ret JNull).

(** The key and the query of a historical request for [days] days. *)
Definition historical_cache_key (days : Z) : string :=
  "coingecko_historical_" +:+ pretty days +:+ "d".

Definition historical_params (days : Z) : list (string * json) :=
  [ ("vs_currency", JStr "usd");
    ("days", JNum (inject_Z days));
    ("interval", JStr "daily") ].

(** [CoinGeckoFetcher.get_historical_data] *)
Definition CoinGeckoFetcher_get_historical_data (days : Z) : M json :=
  let days := Z.min days 365 in
  let cache_key := historical_cache_key days in
  cached <- DataCache_get cache cache_key ;;
  if truthy cached then ret cached
  else
    try_except
      (let url := COINGECKO_BASE_URL +:+ "/coins/bitcoin/market_chart" in
       let params := historical_params days in
       data <- session_get coingecko_http url params ;;
       stamp <- datetime_utcnow_isoformat ;;
       prices <- lift (py_get data "prices" (JList [])) ;;
       market_caps <- lift (py_get data "market_caps" (JList [])) ;;
       volumes <- lift (py_get data "volumes" (JList [])) ;;
       let result := JDict [ ("source", JStr "coingecko");
                             ("timestamp", JStr stamp);
                             ("days", JNum (inject_Z days));
                             ("prices", prices);
                             ("market_caps", market_caps);
                             ("volumes", volumes) ] in
       DataCache_set cache cache_key result ;;;
       logger_info ("Successfully fetched " +:+ pretty days
                      +:+ " days of historical data from CoinGecko") ;;;
       ret result)
      is_RequestException
      (fun e => logger_error ("Error fetching historical data from CoinGecko: "
                                +:+ str_exn e) ;;;
                ret JNull).

(** [CoinMarketCapFetcher.get_current_price] *)
Definition CoinMarketCapFetcher_get_current_price : M json :=
  let cache_key := "coinmarketcap_current_price" in
  cached <- DataCache_get cache cache_key ;;
  if truthy cached then ret cached
  else
    try_except
      (let url := COINMARKETCAP_BASE_URL +:+ "/cryptocurrency/quotes/latest" in
       let params := [ ("symbol", JStr "BTC"); ("convert", JStr "USD,EUR,GBP") ] in
       data <- session_get coinmarketcap_http url params ;;
       stamp <- datetime_utcnow_isoformat ;;
       inner <- lift (py_get data "data" (JDict [])) ;;
       btc <- lift (py_get inner "BTC" (JDict [])) ;;
       let result := JDict [ ("source", JStr "coinmarketcap");
                             ("timestamp", JStr stamp);
                             ("data", btc) ] in
       DataCache_set cache cache_key result ;;;
       logger_info "Successfully fetched current price from CoinMarketCap" ;;;
       ret result)
      is_RequestException
      (fun e => logger_error ("Error fetching from CoinMarketCap: " +:+ str_exn e) ;;;
                ret JNull).

(** [CoinMarketCapFetcher.get_cryptocurrency_info] *)
Definition CoinMarketCapFetcher_get_cryptocurrency_info : M json :=
  let cache_key := "coinmarketcap_info" in
  cached <- DataCache_get cache cache_key ;;
  if truthy cached then ret cached
  else
    try_except
      (let url := COINMARKETCAP_BASE_URL +:+ "/cryptocurrency/info" in
       let params := [ ("symbol", JStr "BTC") ] in
       data <- session_get coinmarketcap_http url params ;;
       stamp <- datetime_utcnow_isoformat ;;
       inner <- lift (py_get data "data" (JDict [])) ;;
       btc <- lift (py_get inner "BTC" (JDict [])) ;;
       let result := JDict [ ("source", JStr "coinmarketcap");
                             ("timestamp", JStr stamp);
                             ("data", btc) ] in
       DataCache_set cache cache_key result ;;;
       logger_info "Successfully fetched info from CoinMarketCap" ;;;
       ret result)
      is_RequestException
      (fun e => logger_error ("Error fetching info from CoinMarketCap: " +:+ str_exn e) ;;;
                ret JNull).

(** [TimeframeDataHandler._process_historical_to_ohlcv]: the body of the
    loop for the item at position [i]. *)
Definition ohlcv_of_item (volumes : json) (i : nat) (item : json) : result json :=
  match py_unpack2 item with
  | Raise e => Raise e
  | Ok (timestamp, price) =>
      match py_len volumes with
      | Raise e => Raise e
      | Ok n =>
          let volume :=
            if Nat.ltb i n then
              match py_index volumes i with
              | Ok entry => py_index entry 1
              | Raise e => Raise e
              end
            else Ok (JNum 0) in
          match volume with
          | Raise e => Raise e
          | Ok volume =>
              match py_number timestamp with
              | Raise e => Raise e
              | Ok millis =>
                  match fromtimestamp (millis / 1000)%Q with
                  | Raise e => Raise e
                  | Ok stamp =>
                      Ok (JDict [ ("timestamp", JStr stamp);
                                  ("open", price);
                                  ("high", price);
                                  ("low", price);
                                  ("close", price);
                                  ("volume", volume) ])
                  end
              end
          end
      end
  end.

(** The loop over [enumerate(prices)], from position [i] on. *)
Fixpoint ohlcv_loop (volumes : json) (i : nat) (items : list json) (ohlcv : list json)
  : result (list json) :=
  match items with
  | [] => Ok ohlcv
  | item :: items' =>
      match ohlcv_of_item volumes i item with
      | Ok c => ohlcv_loop volumes (S i) items' (ohlcv ++ [c])
      | Raise e => Raise e
      end
  end.

Definition _process_historical_to_ohlcv (data : json) : result json :=
  match py_get data "prices" (JList []) with
  | Raise e => Raise e
  | Ok prices =>
      match py_get data "volumes" (JList []) with
      | Raise e => Raise e
      | Ok volumes =>
          match py_iter prices with
          | Raise e => Raise e
          | Ok items =>
              match ohlcv_loop volumes 0 items [] with
              | Ok ohlcv => Ok (JList ohlcv)
              | Raise e => Raise e
              end
          end
      end
  end.

(** [TimeframeDataHandler.get_ohlcv_data] *)
Definition TimeframeDataHandler_get_ohlcv_data (timeframe : string) : M json :=
  match assoc timeframe TIMEFRAMES with
  | None =>
      logger_error ("Invalid timeframe: " +:+ timeframe) ;;;
      ret JNull
  | Some _ =>
      let cache_key := "ohlcv_" +:+ timeframe in
      cached <- DataCache_get cache cache_key ;;
      if truthy cached then ret cached
      else
        try_except
          (let unsupported :=
             logger_warning ("Timeframe " +:+ timeframe
                               +:+ " not fully supported with free APIs") ;;;
             ret JNull in
           if existsb (String.eqb timeframe) ["1d"; "7d"; "30d"] then
             let days :=
               match assoc timeframe [("1d", 1); ("7d", 7); ("30d", 30)] with
               | Some d => d
               | None => 1
               end in
             data <- CoinGeckoFetcher_get_historical_data days ;;
             if truthy data then
               stamp <- datetime_utcnow_isoformat ;;
               ohlcv <- lift (_process_historical_to_ohlcv data) ;;
               let result := JDict [ ("source", JStr "coingecko");
                                     ("timeframe", JStr timeframe);
                                     ("timestamp", JStr stamp);
                                     ("ohlcv", ohlcv) ] in
               DataCache_set cache cache_key result ;;;
               ret result
             else unsupported
           else unsupported)
          is_Exception
          (fun e => logger_error ("Error processing OHLCV data: " +:+ str_exn e) ;;;
                    ret JNull)
  end.

(** [DataFetcher.get_bitcoin_price] *)
Definition DataFetcher_get_bitcoin_price (source : string) : M json :=
  if String.eqb source "coingecko" then CoinGeckoFetcher_get_current_price
  else if String.eqb source "coinmarketcap" then CoinMarketCapFetcher_get_current_price
  else
    logger_error ("Unknown source: " +:+ source) ;;;
    ret JNull.

(** [DataFetcher.get_market_data] *)
Definition DataFetcher_get_market_data (source : string) : M json :=
  if String.eqb source "coingecko" then CoinGeckoFetcher_get_market_data
  else if String.eqb source "coinmarketcap" then CoinMarketCapFetcher_get_cryptocurrency_info
  else
    logger_error ("Unknown source: " +:+ source) ;;;
    ret JNull.

(** [DataFetcher.get_historical_data] *)
Definition DataFetcher_get_historical_data (days : Z) (source : string) : M json :=
  if String.eqb source "coingecko" then CoinGeckoFetcher_get_historical_data days
  else
    logger_error ("Historical data not available for source: " +:+ source) ;;;
    ret JNull.

(** [DataFetcher.get_ohlcv] *)
Definition DataFetcher_get_ohlcv (timeframe : string) : M json :=
  TimeframeDataHandler_get_ohlcv_data timeframe.

End Fetching.

(** [DataFetcher.get_supported_timeframes] *)
Definition DataFetcher_get_supported_timeframes : list string := map fst TIMEFRAMES.

(** The value [DataCache.get] computes from the time it reads and the file
    it finds at the path of the key. *)
Definition cache_read (now : Q) (f : option file) : json :=
  match f with
  | Some (Document (JDict d)) =>
      match py_number (match assoc "timestamp" d with Some t => t | None => JNum 0 end) with
      | Ok stored =>
          if Qlt_le_dec ((now - stored) / 60)%Q CACHE_EXPIRY_MINUTES
          then match assoc "data" d with Some v => v | None => JNull end
          else JNull
      | Raise _ => JNull
      end
  | _ => JNull
  end.

(** Two keys with one MD5 digest (M. Stevens, 2024). *)
Definition collision_key_1 : string :=
  "TEXTCOLLBYfGiJUETHQ4hAcKSMd5zYpgqf1YRDhkmxHkhPWptrkoyz28wnI9V0aHeAuaKnak".
Definition collision_key_2 : string :=
  "TEXTCOLLBYfGiJUETHQ4hEcKSMd5zYpgqf1YRDhkmxHkhPWptrkoyz28wnI9V0aHeAuaKnak".

(** A point [[timestampMillis, value]] of an upstream series, and the candle
    [_process_historical_to_ohlcv] makes of a point. *)
Definition point_json (p : Q * Q) : json := JList [JNum (fst p); JNum (snd p)].

Definition uniform_candle (stamp : string) (price volume : Q) : json :=
  JDict [ ("timestamp", JStr stamp);
          ("open", JNum price);
          ("high", JNum price);
          ("low", JNum price);
          ("close", JNum price);
          ("volume", JNum volume) ].

(** The volume of the series at position [i], and 0 past its end. *)
Definition volume_at (volumes : list (Q * Q)) (i : nat) : Q :=
  match nth_error volumes i with
  | Some v => snd v
  | None => 0%Q
  end.

(** ** The rest of the cache store and of the facade *)

(** [s] without its prefix [p], when it starts with [p]. *)
Fixpoint strip_prefix (p s : string) : option string :=
  match p with
  | EmptyString => Some s
  | String c p' =>
      match s with
      | String c' s' => if Ascii.eqb c c' then strip_prefix p' s' else None
      | EmptyString => None
      end
  end.

(** Whether [s] contains the separator [/], the character of code 47. *)
Fixpoint has_slash (s : string) : bool :=
  match s with
  | EmptyString => false
  | String c s' => Ascii.eqb c (Ascii.ascii_of_nat 47) || has_slash s'
  end.

(** The name ends with [.json]. *)
Fixpoint ends_with_json (s : string) : bool :=
  match s with
  | EmptyString => false
  | String _ s' => String.eqb s ".json" || ends_with_json s'
  end.

(** The paths [self.cache_dir.glob("*.json")] yields: the entries of the
    directory itself whose name matches the pattern. *)
Definition is_cache_file (self : DataCache) (path : string) : bool :=
  match strip_prefix (cache_dir self +:+ "/") path with
  | Some name => negb (has_slash name) && ends_with_json name
  | None => false
  end.

(** [for file in self.cache_dir.glob("*.json"): file.unlink()]. *)
Definition unlink_glob_json (self : DataCache) : M unit :=
  fun w =>
    (Ok tt,
     mkWorld (filter (fun entry : string * file => is_cache_file self entry.1 = false)
                     (files w))
             (logs w) (requests w) (ticks w)).

(** [DataCache.clear] *)
Definition DataCache_clear (self : DataCache) : M unit :=
  try_except
    (unlink_glob_json self ;;;
     logger_info "Cache cleared")
    is_Exception
    (fun e => logger_warning ("Error clearing cache: " +:+ str_exn e)).

(** [DataFetcher.clear_cache] *)
Definition DataFetcher_clear_cache : M unit := DataCache_clear cache.

Section FetchingRest.

Variable clock : nat -> Q.
Variable utcnow : nat -> string.
Variable coingecko_http : nat -> request -> option json.
Variable coinmarketcap_http : nat -> request -> option json.

(** [CoinMarketCapFetcher.get_global_metrics] *)
Definition CoinMarketCapFetcher_get_global_metrics : M json :=
  let cache_key := "coinmarketcap_global_metrics" in
  cached <- DataCache_get clock cache cache_key ;;
  if truthy cached then ret cached
  else
    try_except
      (let url := COINMARKETCAP_BASE_URL +:+ "/global-metrics/quotes/latest" in
       let params := [ ("convert", JStr "USD") ] in
       data <- session_get coinmarketcap_http url params ;;
       stamp <- datetime_utcnow_isoformat utcnow ;;
       inner <- lift (py_get data "data" (JDict [])) ;;
       let result := JDict [ ("source", JStr "coinmarketcap");
                             ("timestamp", JStr stamp);
                             ("data", inner) ] in
       DataCache_set clock cache cache_key result ;;;
       logger_info "Successfully fetched global metrics from CoinMarketCap" ;;;
       ret result)
      is_RequestException
      (fun e => logger_error ("Error fetching global metrics from CoinMarketCap: "
                                +:+ str_exn e) ;;;
                ret JNull).

(** [DataFetcher.get_global_metrics] *)
Definition DataFetcher_get_global_metrics : M json :=
  CoinMarketCapFetcher_get_global_metrics.

(** The six fetching methods, each with the cache key it works under; the
    historical one is taken at [days]. *)
Definition cached_operations (days : Z) : list (string * M json) :=
  [ ("coingecko_current_price",
     CoinGeckoFetcher_get_current_price clock utcnow coingecko_http);
    ("coingecko_market_data",
     CoinGeckoFetcher_get_market_data clock utcnow coingecko_http);
    (historical_cache_key (Z.min days 365),
     CoinGeckoFetcher_get_historical_data clock utcnow coingecko_http days);
    ("coinmarketcap_current_price",
     CoinMarketCapFetcher_get_current_price clock utcnow coinmarketcap_http);
    ("coinmarketcap_info",
     CoinMarketCapFetcher_get_cryptocurrency_info clock utcnow coinmarketcap_http);
    ("coinmarketcap_global_metrics", CoinMarketCapFetcher_get_global_metrics) ].

End FetchingRest.

(** [datetime.fromtimestamp(t).isoformat()] at a time it cannot render: the
    years of a [datetime] stop at 9999, and 10^12 seconds after the epoch lie
    in the year 33658, for which the call raises [ValueError]. What it does at
    any other time is left to [render]. *)
Definition fromtimestamp_year_33658 (render : Q -> result string) (t : Q)
  : result string :=
  if Qeq_bool t 1000000000000 then Raise ValueError else render t.

(** The points come in the order of their timestamps. *)
Definition chronological (p q : Z * pyfloat) : Prop := fst p <= fst q.

(** The sum of the sample counts of a list of candles. *)
Definition total_count (cs : list candle) : Z :=
  fold_right (fun c acc => count c + acc) 0 cs.

(** A cache file [DataCache.get] cannot read: bytes that are not JSON, a
    document that is not an object, or an object whose [timestamp] is not a
    number. *)
Definition unreadable (f : file) : Prop :=
  match f with
  | Garbage => True
  | Document (JDict d) =>
      match assoc "timestamp" d with
      | None | Some (JNum _) | Some (JBool _) => False
      | Some _ => True
      end
  | Document _ => True
  end.

(** * Properties of the aggregator *)

Section DictFacts.

Implicit Types (d : list (Z * candle)) (k : Z) (c : candle).

Lemma dict_lookup_alter f k k' d :
  dict_lookup k' (dict_alter f k d) =
  if Z.eqb k' k then option_map f (dict_lookup k d) else dict_lookup k' d.
Proof.
  induction d as [|[k0 c0] d IH]; simpl.
  - now destruct (Z.eqb k' k).
  - destruct (Z.eqb_spec k k0) as [E|Hk]; simpl;
      destruct (Z.eqb_spec k' k0) as [E'|Hk']; simpl;
      destruct (Z.eqb_spec k' k) as [E''|Hk'']; simpl; subst;
      try congruence; try reflexivity.
Qed.

Lemma dict_lookup_add k k' c d :
  dict_lookup k' (dict_add k c d) =
  match dict_lookup k' d with
  | Some x => Some x
  | None => if Z.eqb k' k then Some c else None
  end.
Proof.
  unfold dict_add. induction d as [|[k0 c0] d IH]; simpl; [reflexivity|].
  now destruct (Z.eqb k' k0).
Qed.

Lemma dict_keys_alter f k d : map fst (dict_alter f k d) = map fst d.
Proof.
  induction d as [|[k0 c0] d IH]; simpl; [reflexivity|].
  destruct (Z.eqb k k0); simpl; [reflexivity|now rewrite IH].
Qed.

Lemma dict_lookup_None k d : dict_lookup k d = None <-> ~ In k (map fst d).
Proof.
  induction d as [|[k0 c0] d IH]; simpl; [tauto|].
  destruct (Z.eqb_spec k k0) as [->|Hk]; split; intros H.
  - discriminate.
  - exfalso; apply H; now left.
  - intros [E|Hin]; [congruence|]. now apply IH in H.
  - apply IH. intros Hin; apply H; now right.
Qed.

Lemma dict_lookup_In k c d :
  List.NoDup (map fst d) -> In (k, c) d -> dict_lookup k d = Some c.
Proof.
  induction d as [|[k0 c0] d IH]; simpl; [tauto|].
  intros Hnd [E|Hin].
  - injection E as -> ->. now rewrite Z.eqb_refl.
  - inversion Hnd as [|? ? Hnotin Hnd']; subst.
    destruct (Z.eqb_spec k k0) as [->|Hk]; [|now apply IH].
    exfalso. apply Hnotin. now apply (in_map fst) in Hin.
Qed.

Lemma dict_In_lookup k c d : dict_lookup k d = Some c -> In (k, c) d.
Proof.
  induction d as [|[k0 c0] d IH]; simpl; [discriminate|].
  destruct (Z.eqb_spec k k0) as [->|Hk]; intros H.
  - injection H as ->. now left.
  - right. now apply IH.
Qed.

End DictFacts.

(** What one round of the loop does to the entry of each key. *)
Lemma aggregate_step_lookup w d ts price k :
  dict_lookup k (aggregate_step w d (ts, price)) =
  if Z.eqb k (bucket_of w ts) then
    Some (match dict_lookup (bucket_of w ts) d with
          | None => mkCandle (bucket_of w ts) price price price price 0 1
          | Some c => mkCandle (timestamp c) (open c) (py_max (high c) price)
                               (py_min (low c) price) price (volume c) (count c + 1)
          end)
  else dict_lookup k d.
Proof.
  unfold aggregate_step.
  destruct (dict_lookup (bucket_of w ts) d) as [c|] eqn:Hb;
    rewrite dict_lookup_alter.
  - rewrite dict_lookup_alter, Z.eqb_refl, Hb.
    destruct (Z.eqb_spec k (bucket_of w ts)) as [->|Hk]; [reflexivity|].
    rewrite dict_lookup_alter.
    now destruct (Z.eqb_spec k (bucket_of w ts)).
  - rewrite !dict_lookup_add, Hb, Z.eqb_refl.
    destruct (Z.eqb_spec k (bucket_of w ts)) as [->|Hk]; [reflexivity|].
    now destruct (dict_lookup k d).
Qed.

Lemma aggregate_step_keys w d p :
  List.NoDup (map fst d) -> List.NoDup (map fst (aggregate_step w d p)).
Proof.
  destruct p as [ts price]. unfold aggregate_step. intros Hnd.
  rewrite dict_keys_alter.
  destruct (dict_lookup (bucket_of w ts) d) eqn:Hb.
  - now rewrite dict_keys_alter.
  - unfold dict_add. rewrite map_app. simpl.
    apply List.NoDup_app.
    + exact Hnd.
    + repeat constructor. simpl. tauto.
    + intros x Hx [<-|[]]. now apply dict_lookup_None in Hb.
Qed.

Lemma aggregate_loop_snoc w l p :
  aggregate_loop w (l ++ [p]) = aggregate_step w (aggregate_loop w l) p.
Proof. unfold aggregate_loop. now rewrite fold_left_app. Qed.

Lemma aggregate_loop_keys w l : List.NoDup (map fst (aggregate_loop w l)).
Proof.
  induction l as [|p l IH] using rev_ind.
  - constructor.
  - rewrite aggregate_loop_snoc. now apply aggregate_step_keys.
Qed.

Lemma bucket_points_snoc w k l p :
  bucket_points w k (l ++ [p]) =
  bucket_points w k l ++ (if Z.eqb (bucket_of w (fst p)) k then [p] else []).
Proof. unfold bucket_points. now rewrite List.filter_app. Qed.

(** The loop computes, for every key, the summary of the key's points. *)
Lemma aggregate_loop_lookup w l k :
  dict_lookup k (aggregate_loop w l) = summary w k l.
Proof.
  induction l as [|[ts price] l IH] using rev_ind; [reflexivity|].
  rewrite aggregate_loop_snoc, aggregate_step_lookup.
  unfold summary. rewrite bucket_points_snoc. simpl fst.
  destruct (Z.eqb_spec k (bucket_of w ts)) as [->|Hk].
  - rewrite Z.eqb_refl, IH. unfold summary.
    destruct (bucket_points w (bucket_of w ts) l) as [|[t0 p0] rest]; simpl; [reflexivity|].
    rewrite !List.map_app. simpl map.
    rewrite !fold_left_app, last_last. simpl.
    do 2 f_equal. rewrite length_app. simpl. lia.
  - destruct (Z.eqb_spec (bucket_of w ts) k); [congruence|].
    rewrite app_nil_r. exact IH.
Qed.

(** ** [sorted] returns a sorted rearrangement of its argument *)

Lemma sorted_insert_perm x l : Permutation (x :: l) (sorted_insert x l).
Proof.
  induction l as [|y l IH]; simpl; [reflexivity|].
  destruct (Z.leb (timestamp x) (timestamp y)); [reflexivity|].
  rewrite perm_swap. now constructor.
Qed.

Lemma sorted_perm l : Permutation l (sorted l).
Proof.
  induction l as [|x l IH]; simpl; [constructor|].
  rewrite <- sorted_insert_perm. now constructor.
Qed.

Lemma sorted_insert_sorted x l :
  StronglySorted by_timestamp l -> StronglySorted by_timestamp (sorted_insert x l).
Proof.
  induction l as [|y l IH]; simpl; intros Hs.
  - repeat constructor.
  - inversion Hs as [|? ? Hl Hy]; subst.
    destruct (Z.leb_spec (timestamp x) (timestamp y)) as [Hle|Hgt].
    + constructor; [exact Hs|]. constructor; [exact Hle|].
      eapply List.Forall_impl; [|exact Hy]. unfold by_timestamp. intros; lia.
    + constructor; [now apply IH|].
      rewrite <- sorted_insert_perm. constructor; [unfold by_timestamp; lia|exact Hy].
Qed.

Lemma sorted_sorted l : StronglySorted by_timestamp (sorted l).
Proof.
  induction l as [|x l IH]; simpl; [constructor|now apply sorted_insert_sorted].
Qed.

(** Without repeated keys the order is strict. *)
Lemma sorted_strict (l : list candle) :
  StronglySorted by_timestamp l -> List.NoDup (map timestamp l) ->
  StronglySorted Z.lt (map timestamp l).
Proof.
  induction 1 as [|x l Hs IH Hx]; simpl; intros Hnd; [constructor|].
  inversion Hnd as [|? ? Hnotin Hnd']; subst.
  constructor; [now apply IH|].
  rewrite List.Forall_map. rewrite List.Forall_forall in Hx |- *.
  intros y Hy. specialize (Hx y Hy). unfold by_timestamp in Hx.
  assert (timestamp x <> timestamp y).
  { intros E. apply Hnotin. rewrite E. now apply in_map. }
  lia.
Qed.

(** ** Running maximum and minimum *)

Lemma float_le_refl a : a <> NaN -> float_le a a.
Proof.
  unfold float_le. destruct a; simpl; try congruence.
  intros _. apply Qle_bool_iff. lra.
Qed.

Lemma float_le_trans a b c : float_le a b -> float_le b c -> float_le a c.
Proof.
  unfold float_le. destruct a, b, c; simpl; try congruence.
  rewrite !Qle_bool_iff. lra.
Qed.

Lemma float_le_not_nan a b : float_le a b -> a <> NaN /\ b <> NaN.
Proof. unfold float_le. destruct a, b; simpl; split; congruence. Qed.

Lemma float_ltb_le a b : float_ltb a b = true -> float_le a b.
Proof.
  unfold float_le. destruct a, b; simpl; try congruence.
  destruct (Qle_bool q0 q) eqn:E; [discriminate|]. intros _.
  apply Qle_bool_iff. destruct (Qlt_le_dec q q0) as [H|H]; [lra|].
  apply Qle_bool_iff in H. congruence.
Qed.

Lemma float_ltb_ge a b :
  a <> NaN -> b <> NaN -> float_ltb a b = false -> float_le b a.
Proof.
  unfold float_le. destruct a, b; simpl; try congruence.
  intros _ _. now destruct (Qle_bool q0 q).
Qed.

(** [max] and [min] return one of their arguments, whatever these are. *)
Lemma py_max_cases a b : py_max a b = a \/ py_max a b = b.
Proof. unfold py_max. destruct (float_ltb a b); auto. Qed.

Lemma py_min_cases a b : py_min a b = a \/ py_min a b = b.
Proof. unfold py_min. destruct (float_ltb b a); auto. Qed.

(** They bound their arguments when neither is NaN. *)
Lemma py_max_bound a b :
  a <> NaN -> b <> NaN -> float_le a (py_max a b) /\ float_le b (py_max a b).
Proof.
  intros Ha Hb. unfold py_max. destruct (float_ltb a b) eqn:E.
  - split; [now apply float_ltb_le|now apply float_le_refl].
  - split; [now apply float_le_refl|now apply float_ltb_ge].
Qed.

Lemma py_min_bound a b :
  a <> NaN -> b <> NaN -> float_le (py_min a b) a /\ float_le (py_min a b) b.
Proof.
  intros Ha Hb. unfold py_min. destruct (float_ltb b a) eqn:E.
  - split; [now apply float_ltb_le|now apply float_le_refl].
  - split; [now apply float_le_refl|now apply float_ltb_ge].
Qed.

Lemma fold_py_max_In l a : In (fold_left py_max l a) (a :: l).
Proof.
  revert a. induction l as [|b l IH]; intros a; simpl; [now left|].
  destruct (IH (py_max a b)) as [E|Hin]; [|now right; right].
  rewrite <- E. destruct (py_max_cases a b) as [->| ->]; [now left|now right; left].
Qed.

Lemma fold_py_min_In l a : In (fold_left py_min l a) (a :: l).
Proof.
  revert a. induction l as [|b l IH]; intros a; simpl; [now left|].
  destruct (IH (py_min a b)) as [E|Hin]; [|now right; right].
  rewrite <- E. destruct (py_min_cases a b) as [->| ->]; [now left|now right; left].
Qed.

Lemma fold_py_max_bound l a :
  (forall x, In x (a :: l) -> x <> NaN) ->
  forall x, In x (a :: l) -> float_le x (fold_left py_max l a).
Proof.
  revert a. induction l as [|b l IH]; intros a Hnan; simpl.
  - intros x [<-|[]]. apply float_le_refl, Hnan. now left.
  - assert (Ha : a <> NaN) by (apply Hnan; now left).
    assert (Hb : b <> NaN) by (apply Hnan; now right; left).
    destruct (py_max_bound a b Ha Hb) as [Hle_a Hle_b].
    assert (Hnan' : forall x, In x (py_max a b :: l) -> x <> NaN).
    { intros x [<-|Hx]; [|apply Hnan; now right; right].
      now destruct (py_max_cases a b) as [->| ->]. }
    intros x [<-|[<-|Hx]].
    + eapply float_le_trans; [exact Hle_a|]. apply IH; [exact Hnan'|now left].
    + eapply float_le_trans; [exact Hle_b|]. apply IH; [exact Hnan'|now left].
    + apply IH; [exact Hnan'|now right].
Qed.

Lemma fold_py_min_bound l a :
  (forall x, In x (a :: l) -> x <> NaN) ->
  forall x, In x (a :: l) -> float_le (fold_left py_min l a) x.
Proof.
  revert a. induction l as [|b l IH]; intros a Hnan; simpl.
  - intros x [<-|[]]. apply float_le_refl, Hnan. now left.
  - assert (Ha : a <> NaN) by (apply Hnan; now left).
    assert (Hb : b <> NaN) by (apply Hnan; now right; left).
    destruct (py_min_bound a b Ha Hb) as [Hle_a Hle_b].
    assert (Hnan' : forall x, In x (py_min a b :: l) -> x <> NaN).
    { intros x [<-|Hx]; [|apply Hnan; now right; right].
      now destruct (py_min_cases a b) as [->| ->]. }
    intros x [<-|[<-|Hx]].
    + eapply float_le_trans; [|exact Hle_a]. apply IH; [exact Hnan'|now left].
    + eapply float_le_trans; [|exact Hle_b]. apply IH; [exact Hnan'|now left].
    + apply IH; [exact Hnan'|now right].
Qed.

(** ** The candles of the result *)

Lemma summary_timestamp w k l c : summary w k l = Some c -> timestamp c = k.
Proof.
  unfold summary. destruct (bucket_points w k l) as [|[t0 p0] rest]; [discriminate|].
  now intros [= <-].
Qed.

Lemma aggregate_loop_timestamps w l :
  map timestamp (dict_values (aggregate_loop w l)) = map fst (aggregate_loop w l).
Proof.
  unfold dict_values. rewrite List.map_map. apply map_ext_in.
  intros [k c] Hin. simpl.
  apply dict_lookup_In in Hin; [|apply aggregate_loop_keys].
  rewrite aggregate_loop_lookup in Hin. now apply summary_timestamp in Hin.
Qed.

Lemma aggregate_values_summary w l c :
  In c (sorted (dict_values (aggregate_loop w l))) <->
  summary w (timestamp c) l = Some c.
Proof.
  split.
  - intros Hin. apply (Permutation_in _ (Permutation_sym (sorted_perm _))) in Hin.
    unfold dict_values in Hin. apply in_map_iff in Hin as [[k c'] [E Hin]].
    simpl in E. subst c'.
    apply dict_lookup_In in Hin; [|apply aggregate_loop_keys].
    rewrite aggregate_loop_lookup in Hin.
    now rewrite (summary_timestamp _ _ _ _ Hin).
  - intros Hs. rewrite <- aggregate_loop_lookup in Hs.
    apply dict_In_lookup in Hs.
    apply (Permutation_in _ (sorted_perm _)).
    unfold dict_values. apply in_map_iff. now exists (timestamp c, c).
Qed.

Lemma bucket_points_In w k l p :
  In p (bucket_points w k l) <-> In p l /\ bucket_of w (fst p) = k.
Proof.
  unfold bucket_points. rewrite List.filter_In.
  now destruct (Z.eqb_spec (bucket_of w (fst p)) k).
Qed.

(** The bucket of a timestamp is the multiple of the width at or below it. *)
Lemma bucket_of_floor w ts :
  0 < w ->
  bucket_of w ts = w * (ts / w) /\ bucket_of w ts <= ts < bucket_of w ts + w.
Proof.
  intros Hw. unfold bucket_of. split; [lia|].
  pose proof (Z.mul_div_le ts w Hw). pose proof (Z.mul_succ_div_gt ts w Hw). lia.
Qed.

Lemma TIMEFRAMES_positive timeframe minutes :
  assoc timeframe TIMEFRAMES = Some minutes -> 0 < minutes * 60.
Proof.
  unfold TIMEFRAMES. simpl.
  repeat (destruct (String.eqb timeframe _); [intros [= <-]; lia|]).
  discriminate.
Qed.

Lemma aggregate_to_timeframe_valid prices timeframe minutes w :
  assoc timeframe TIMEFRAMES = Some minutes ->
  aggregate_to_timeframe prices timeframe w =
  (Ok (sorted (dict_values (aggregate_loop (minutes * 60) prices))), w).
Proof. unfold aggregate_to_timeframe. now intros ->. Qed.

Lemma aggregate_to_timeframe_invalid prices timeframe w :
  assoc timeframe TIMEFRAMES = None ->
  aggregate_to_timeframe prices timeframe w =
  (Ok [], mkWorld (files w) (logs w ++ [(ERROR, "Invalid timeframe: " +:+ timeframe)])
                  (requests w) (ticks w)).
Proof. unfold aggregate_to_timeframe. now intros ->. Qed.

(** C1. For the label "1h", whose buckets are 3600 seconds wide, the points
    (0,100), (1800,110), (3600,90) aggregate to exactly two candles: the bucket
    at 0 with open 100, high 110, low 100, close 110 and two samples, and the
    bucket at 3600 with open, high, low and close 90 and one sample. *)
Theorem aggregate_1h_example (w : World) :
  option_map (fun minutes => minutes * 60) (assoc "1h" TIMEFRAMES) = Some 3600 /\
  aggregate_to_timeframe [(0, Finite 100); (1800, Finite 110); (3600, Finite 90)] "1h" w =
  (Ok [ mkCandle 0 (Finite 100) (Finite 110) (Finite 100) (Finite 110) 0 2;
        mkCandle 3600 (Finite 90) (Finite 90) (Finite 90) (Finite 90) 0 1 ], w).
Proof. split; reflexivity. Qed.

(** C2. For a label of the timeframe table, every point is assigned to the
    bucket starting at floor(timestamp / width) * width, the multiple of the
    width at or below its timestamp, and every candle of the result
    summarises the points of its bucket: open is the price of the first of
    them in input order, close the price of the last, count their number, and
    high and low are each the price of one of them; when no price of the
    bucket is NaN, high is their maximum and low their minimum. *)
Theorem aggregate_bucket_contents
    (prices : list (Z * pyfloat)) (timeframe : string) (minutes : Z) (w : World)
    (Hvalid : assoc timeframe TIMEFRAMES = Some minutes) :
  let width := minutes * 60 in
  exists candles,
    aggregate_to_timeframe prices timeframe w = (Ok candles, w) /\
    (forall p, In p prices ->
       bucket_of width (fst p) = width * (fst p / width) /\
       bucket_of width (fst p) <= fst p < bucket_of width (fst p) + width /\
       exists c, In c candles /\ timestamp c = bucket_of width (fst p) /\
                 In p (bucket_points width (timestamp c) prices)) /\
    (forall c, In c candles ->
       exists p0 rest,
         bucket_points width (timestamp c) prices = p0 :: rest /\
         open c = snd p0 /\
         close c = snd (List.last rest p0) /\
         In (high c) (map snd (p0 :: rest)) /\
         In (low c) (map snd (p0 :: rest)) /\
         count c = Z.of_nat (length (p0 :: rest)) /\
         ((forall p, In p (p0 :: rest) -> snd p <> NaN) ->
          (forall p, In p (p0 :: rest) -> float_le (snd p) (high c)) /\
          (forall p, In p (p0 :: rest) -> float_le (low c) (snd p)))).
Proof.
  intros width.
  exists (sorted (dict_values (aggregate_loop width prices))).
  split; [exact (aggregate_to_timeframe_valid prices timeframe minutes w Hvalid)|].
  split.
  - intros p Hp.
    destruct (bucket_of_floor width (fst p)) as [Hfloor Hrange];
      [now apply (TIMEFRAMES_positive timeframe)|].
    split; [exact Hfloor|]. split; [exact Hrange|].
    assert (Hpts : In p (bucket_points width (bucket_of width (fst p)) prices))
      by now apply bucket_points_In.
    destruct (summary width (bucket_of width (fst p)) prices) as [c|] eqn:Hs.
    + pose proof (summary_timestamp _ _ _ _ Hs) as Hts.
      exists c. rewrite Hts. repeat split; [|exact Hpts].
      apply aggregate_values_summary. now rewrite Hts.
    + unfold summary in Hs.
      destruct (bucket_points width (bucket_of width (fst p)) prices) as [|[t0 q0] r];
        [destruct Hpts|discriminate].
  - intros c Hc. apply aggregate_values_summary in Hc. unfold summary in Hc.
    destruct (bucket_points width (timestamp c) prices) as [|[t0 q0] rest];
      [discriminate|].
    exists (t0, q0), rest. injection Hc as <-. simpl.
    split; [reflexivity|]. split; [reflexivity|]. split.
    { clear. revert t0 q0. induction rest as [|[t1 q1] rest IH]; intros; [reflexivity|].
      destruct rest as [|r rest']; [reflexivity|]. exact (IH t0 q0). }
    split; [exact (fold_py_max_In (map snd rest) q0)|].
    split; [exact (fold_py_min_In (map snd rest) q0)|].
    split; [reflexivity|].
    intros Hnan.
    assert (Hnan' : forall x, In x (q0 :: map snd rest) -> x <> NaN).
    { intros x Hx. change (q0 :: map snd rest) with (map snd ((t0, q0) :: rest)) in Hx.
      apply in_map_iff in Hx as [p [<- Hp]]. now apply Hnan. }
    split; intros p Hp.
    + apply (fold_py_max_bound _ _ Hnan'). exact (in_map snd ((t0, q0) :: rest) p Hp).
    + apply (fold_py_min_bound _ _ Hnan'). exact (in_map snd ((t0, q0) :: rest) p Hp).
Qed.

(** A run of C2 on the points of C1. *)
Lemma aggregate_bucket_contents_witness :
  assoc "1h" TIMEFRAMES = Some 60 /\
  exists candles,
    aggregate_to_timeframe [(0, Finite 100); (1800, Finite 110); (3600, Finite 90)] "1h"
      (mkWorld ∅ [] [] 0) = (Ok candles, mkWorld ∅ [] [] 0) /\
    length candles = 2%nat.
Proof.
  split; [reflexivity|].
  destruct (aggregate_bucket_contents [(0, Finite 100); (1800, Finite 110); (3600, Finite 90)]
              "1h" 60 (mkWorld ∅ [] [] 0) eq_refl) as [candles [Hrun _]].
  exists candles. split; [exact Hrun|].
  injection Hrun as <-. reflexivity.
Defined.

(** C2 as written, with high the maximum and low the minimum of every bucket,
    fails on a price that is NaN: for the points (0, NaN), (10, 1) under the
    label 1h the only candle has high and low NaN, which bound no price of
    its bucket, and the same two points in the other order give high and low
    1, so neither is determined by the prices of the bucket. *)
Lemma aggregate_bucket_contents_counterexample :
  assoc "1h" TIMEFRAMES = Some 60 /\
  aggregate_to_timeframe [(0, NaN); (10, Finite 1)] "1h" (mkWorld ∅ [] [] 0) =
    (Ok [mkCandle 0 NaN NaN NaN (Finite 1) 0 2], mkWorld ∅ [] [] 0) /\
  bucket_points (60 * 60) 0 [(0, NaN); (10, Finite 1)] = [(0, NaN); (10, Finite 1)] /\
  ~ (forall c, In c [mkCandle 0 NaN NaN NaN (Finite 1) 0 2] ->
       forall p, In p (bucket_points (60 * 60) (timestamp c) [(0, NaN); (10, Finite 1)]) ->
         float_le (snd p) (high c)) /\
  ~ (forall c, In c [mkCandle 0 NaN NaN NaN (Finite 1) 0 2] ->
       forall p, In p (bucket_points (60 * 60) (timestamp c) [(0, NaN); (10, Finite 1)]) ->
         float_le (low c) (snd p)) /\
  aggregate_to_timeframe [(10, Finite 1); (0, NaN)] "1h" (mkWorld ∅ [] [] 0) =
    (Ok [mkCandle 0 (Finite 1) (Finite 1) (Finite 1) NaN 0 2], mkWorld ∅ [] [] 0).
Proof.
  split; [reflexivity|]. split; [reflexivity|]. split; [reflexivity|].
  split; [|split; [|reflexivity]].
  - intros H. specialize (H _ (or_introl eq_refl) (10, Finite 1)).
    simpl in H. discriminate H. right. now left.
  - intros H. specialize (H _ (or_introl eq_refl) (10, Finite 1)).
    simpl in H. discriminate H. right. now left.
Qed.

(** C3. Whatever the order of the input, the candles come out in strictly
    ascending order of their timestamp, one candle for each bucket that some
    input point falls into (and none at all for a label outside the table). *)
Theorem aggregate_sorted_by_bucket
    (prices : list (Z * pyfloat)) (timeframe : string) (w : World) :
  exists candles,
    eval (aggregate_to_timeframe prices timeframe) w = Ok candles /\
    StronglySorted Z.lt (map timestamp candles) /\
    List.NoDup (map timestamp candles) /\
    match assoc timeframe TIMEFRAMES with
    | Some minutes =>
        forall k, In k (map timestamp candles) <->
                  exists p, In p prices /\ bucket_of (minutes * 60) (fst p) = k
    | None => candles = []
    end.
Proof.
  unfold eval.
  destruct (assoc timeframe TIMEFRAMES) as [minutes|] eqn:Htf.
  - rewrite (aggregate_to_timeframe_valid _ _ _ _ Htf). simpl.
    set (d := aggregate_loop (minutes * 60) prices).
    assert (Hnd : List.NoDup (map timestamp (sorted (dict_values d)))).
    { eapply Permutation_NoDup.
      - apply Permutation_map. apply sorted_perm.
      - unfold d. rewrite aggregate_loop_timestamps. apply aggregate_loop_keys. }
    eexists. split; [reflexivity|]. split; [|split; [exact Hnd|]].
    + apply sorted_strict; [apply sorted_sorted|exact Hnd].
    + intros k. rewrite in_map_iff. split.
      * intros [c [<- Hc]]. apply aggregate_values_summary in Hc.
        unfold summary in Hc.
        destruct (bucket_points (minutes * 60) (timestamp c) prices) as [|p r] eqn:Hb;
          [discriminate|].
        exists p. apply bucket_points_In. rewrite Hb. now left.
      * intros [p [Hp Hk]].
        assert (Hpts : In p (bucket_points (minutes * 60) k prices))
          by now apply bucket_points_In.
        destruct (summary (minutes * 60) k prices) as [c|] eqn:Hs.
        -- pose proof (summary_timestamp _ _ _ _ Hs) as Hts.
           exists c. split; [exact Hts|].
           apply aggregate_values_summary. now rewrite Hts.
        -- unfold summary in Hs.
           destruct (bucket_points (minutes * 60) k prices) as [|[t0 q0] r];
             [destruct Hpts|discriminate].
  - rewrite (aggregate_to_timeframe_invalid _ _ _ Htf). simpl.
    exists []. repeat split; constructor.
Qed.

(** C4. Every candle of the result has volume 0: a bucket is created with
    volume 0, and a later point of the same bucket leaves the volume as it
    is while it updates high, low, close and count. *)
Theorem aggregate_volume_zero
    (prices : list (Z * pyfloat)) (timeframe : string) (w : World) :
  (exists candles,
     eval (aggregate_to_timeframe prices timeframe) w = Ok candles /\
     Forall (fun c => volume c = 0) candles) /\
  (forall width d ts price k,
     option_map volume (dict_lookup k (aggregate_step width d (ts, price))) =
     if Z.eqb k (bucket_of width ts)
     then Some (match dict_lookup k d with Some c => volume c | None => 0 end)
     else option_map volume (dict_lookup k d)) /\
  (forall width d ts price,
     dict_lookup (bucket_of width ts) (aggregate_step width d (ts, price)) =
     Some (match dict_lookup (bucket_of width ts) d with
           | None => mkCandle (bucket_of width ts) price price price price 0 1
           | Some c => mkCandle (timestamp c) (open c) (py_max (high c) price)
                                (py_min (low c) price) price (volume c) (count c + 1)
           end)).
Proof.
  split; [|split].
  - unfold eval. destruct (assoc timeframe TIMEFRAMES) as [minutes|] eqn:Htf.
    + rewrite (aggregate_to_timeframe_valid _ _ _ _ Htf). simpl.
      eexists. split; [reflexivity|].
      apply List.Forall_forall. intros c Hc.
      apply aggregate_values_summary in Hc. unfold summary in Hc.
      destruct (bucket_points _ _ _) as [|[t0 q0] r]; [discriminate|].
      now injection Hc as <-.
    + rewrite (aggregate_to_timeframe_invalid _ _ _ Htf). simpl.
      exists []. split; [reflexivity|constructor].
  - intros width d ts price k. rewrite aggregate_step_lookup.
    destruct (Z.eqb_spec k (bucket_of width ts)) as [->|Hne]; [|reflexivity].
    now destruct (dict_lookup (bucket_of width ts) d).
  - intros width d ts price. now rewrite aggregate_step_lookup, Z.eqb_refl.
Qed.

(** * Properties of the cache store *)

(** The test suite of RFC 1321, appendix A.5. *)
Lemma md5_rfc1321_test_suite :
  MD5.hexdigest "" = "d41d8cd98f00b204e9800998ecf8427e" /\
  MD5.hexdigest "a" = "0cc175b9c0f1b6a831c399e269772661" /\
  MD5.hexdigest "abc" = "900150983cd24fb0d6963f7d28e17f72" /\
  MD5.hexdigest "message digest" = "f96b697d7cb7938d525a2f31aaf161d0" /\
  MD5.hexdigest "abcdefghijklmnopqrstuvwxyz" = "c3fcd3d76192e4007dfb496cca67e13b" /\
  MD5.hexdigest "ABCDEFGHIJKLMNOPQRSTUVWXYZabcdefghijklmnopqrstuvwxyz0123456789"
    = "d174ab98d277d9f5a5611c2c9f419d9f" /\
  MD5.hexdigest
    "12345678901234567890123456789012345678901234567890123456789012345678901234567890"
    = "57edf4a22be3c955ac49da2e2107b67a".
Proof. repeat (apply conj); vm_compute; reflexivity. Qed.

Lemma string_length_append (s t : string) :
  String.length (s +:+ t) = (String.length s + String.length t)%nat.
Proof. induction s as [|c s IH]; simpl; [reflexivity|now rewrite IH]. Qed.

Lemma append_inj_r (t s1 s2 : string) : s1 +:+ t = s2 +:+ t -> s1 = s2.
Proof.
  revert s2. induction s1 as [|c s1 IH]; intros [|c' s2] E; simpl in E.
  - reflexivity.
  - apply (f_equal String.length) in E.
    rewrite !string_length_append in E. simpl in E. lia.
  - apply (f_equal String.length) in E.
    rewrite !string_length_append in E. simpl in E. lia.
  - injection E as -> E. f_equal. now apply IH.
Qed.

(** Distinct digests give distinct paths. *)
Lemma _get_cache_path_inj self k1 k2 :
  _get_cache_path self k1 = _get_cache_path self k2 ->
  MD5.hexdigest k1 = MD5.hexdigest k2.
Proof.
  unfold _get_cache_path. intros E.
  apply String.app_inj in E. apply String.app_inj in E.
  now apply append_inj_r in E.
Qed.

Section CacheFacts.

Variable clock : nat -> Q.

Lemma DataCache_set_run self key data w :
  DataCache_set clock self key data w =
  (Ok tt,
   mkWorld (<[_get_cache_path self key :=
                Document (cache_entry (clock (ticks w)) data)]> (files w))
           (logs w ++ [(INFO, "Cached data for key: " +:+ key)])
           (requests w) (S (ticks w))).
Proof. reflexivity. Qed.

(** [get] returns, and what it returns is [cache_read] of the file. *)
Lemma DataCache_get_eval self key w :
  eval (DataCache_get clock self key) w =
  Ok (cache_read (clock (ticks w)) (files w !! _get_cache_path self key)).
Proof.
  unfold eval, DataCache_get, bind, path_exists, try_except, json_load.
  destruct (files w !! _get_cache_path self key) as [[j|]|] eqn:Hf; simpl;
    rewrite ?Hf; simpl; try reflexivity.
  destruct j as [| | | | |d]; simpl; try reflexivity.
  destruct (assoc "timestamp" d) as [[| | | | |]|]; simpl; try reflexivity;
    destruct (Qlt_le_dec _ _); reflexivity.
Qed.

(** [get] leaves the files and the requests as they are. *)
Lemma DataCache_get_exec self key w :
  files (exec (DataCache_get clock self key) w) = files w /\
  requests (exec (DataCache_get clock self key) w) = requests w.
Proof.
  unfold exec, DataCache_get, bind, path_exists, try_except, json_load.
  destruct (files w !! _get_cache_path self key) as [[j|]|] eqn:Hf; simpl;
    rewrite ?Hf; simpl; try (split; reflexivity).
  destruct j as [| | | | |d]; simpl; try (split; reflexivity).
  destruct (assoc "timestamp" d) as [[| | | | |]|]; simpl; try (split; reflexivity);
    destruct (Qlt_le_dec _ _); split; reflexivity.
Qed.

Lemma age_within_window (x : Q) :
  (x / 60 < CACHE_EXPIRY_MINUTES <-> x < CACHE_EXPIRY_MINUTES * 60)%Q.
Proof.
  unfold CACHE_EXPIRY_MINUTES.
  assert (E : (x / 60 * 60 == x)%Q) by (apply Qdiv_mult_l; discriminate).
  rewrite <- (Qmult_lt_r (x / 60) 5 60) by reflexivity.
  now rewrite E.
Qed.

(** C7. After [set(k, v)] made at time [T], a [get(k)] made at time
    [T + delta], with the file as [set] left it, returns [v] when [delta] is
    less than the expiry window of five minutes, and the absent value when
    [delta] is the window or more. *)
Theorem cache_set_get_expiry
    (self : DataCache) (k : string) (v : json) (w : World)
    (later_logs : list (level * string)) (later_requests : list request) (n : nat) :
  let T := clock (ticks w) in
  let delta := (clock n - T)%Q in
  let w' := mkWorld (files (exec (DataCache_set clock self k v) w))
                    later_logs later_requests n in
  eval (DataCache_get clock self k) w' =
  Ok (if Qlt_le_dec delta (CACHE_EXPIRY_MINUTES * 60)%Q then v else JNull).
Proof.
  intros T delta w'. rewrite DataCache_get_eval. unfold w', exec.
  rewrite DataCache_set_run. simpl files. rewrite lookup_insert_eq.
  simpl. fold T. fold delta.
  destruct (Qlt_le_dec (delta / 60) CACHE_EXPIRY_MINUTES) as [Hlt|Hge];
    destruct (Qlt_le_dec delta (CACHE_EXPIRY_MINUTES * 60)) as [Hlt'|Hge'];
    try reflexivity; exfalso.
  - apply age_within_window in Hlt. apply (Qlt_not_le _ _ Hlt), Hge'.
  - apply age_within_window in Hlt'. apply (Qlt_not_le _ _ Hlt'), Hge.
Qed.

(** C8, as amended. When the digests of two keys differ, [set] on the first
    leaves the file of the second as it is, and a [get] of the second made at
    any moment returns the same value with or without that [set]. *)
Theorem cache_isolation_by_digest
    (self : DataCache) (k1 k2 : string) (v : json) (w : World)
    (later_logs : list (level * string)) (later_requests : list request) (n : nat)
    (Hdigest : MD5.hexdigest k1 <> MD5.hexdigest k2) :
  _get_cache_path self k1 <> _get_cache_path self k2 /\
  files (exec (DataCache_set clock self k1 v) w) !! _get_cache_path self k2 =
    files w !! _get_cache_path self k2 /\
  eval (DataCache_get clock self k2)
       (mkWorld (files (exec (DataCache_set clock self k1 v) w))
                later_logs later_requests n) =
  eval (DataCache_get clock self k2)
       (mkWorld (files w) later_logs later_requests n).
Proof.
  assert (Hpath : _get_cache_path self k1 <> _get_cache_path self k2)
    by (intros E; apply Hdigest; now apply (_get_cache_path_inj self)).
  split; [exact Hpath|].
  assert (Hfile : files (exec (DataCache_set clock self k1 v) w)
                    !! _get_cache_path self k2 = files w !! _get_cache_path self k2).
  { unfold exec. rewrite DataCache_set_run. simpl files.
    now apply lookup_insert_ne. }
  split; [exact Hfile|].
  rewrite !DataCache_get_eval. cbn [files ticks]. now rewrite Hfile.
Qed.

End CacheFacts.

(** A run of the amended C8 on two keys the fetchers use. *)
Lemma cache_isolation_by_digest_witness :
  MD5.hexdigest "coingecko_current_price" <> MD5.hexdigest "coingecko_market_data" /\
  eval (DataCache_get (fun _ => 0%Q) cache "coingecko_market_data")
       (mkWorld (files (exec (DataCache_set (fun _ => 0%Q) cache "coingecko_current_price"
                                 (JStr "v")) (mkWorld ∅ [] [] 0))) [] [] 1) =
  eval (DataCache_get (fun _ => 0%Q) cache "coingecko_market_data") (mkWorld ∅ [] [] 1).
Proof.
  assert (H : MD5.hexdigest "coingecko_current_price"
              <> MD5.hexdigest "coingecko_market_data")
    by (vm_compute; discriminate).
  split; [exact H|].
  exact (proj2 (proj2 (cache_isolation_by_digest (fun _ => 0%Q) cache
                         "coingecko_current_price" "coingecko_market_data"
                         (JStr "v") (mkWorld ∅ [] [] 0) [] [] 1%nat H))).
Defined.

(** The two colliding keys are distinct and share their digest, hence their
    cache file. *)
Lemma collision_keys :
  collision_key_1 <> collision_key_2 /\
  MD5.hexdigest collision_key_1 = "faad49866e9498fc1719f5289e7a0269" /\
  MD5.hexdigest collision_key_2 = "faad49866e9498fc1719f5289e7a0269" /\
  _get_cache_path cache collision_key_1 = _get_cache_path cache collision_key_2.
Proof. split; [discriminate|]. repeat (apply conj); vm_compute; reflexivity. Qed.

(** C8, as stated, fails. The two keys differ, and a [get] of the second,
    which misses in an empty cache directory, returns the value that a [set]
    on the first has stored. *)
Lemma cache_isolation_counterexample :
  collision_key_1 <> collision_key_2 /\
  eval (DataCache_get (fun _ => 0%Q) cache collision_key_2) (mkWorld ∅ [] [] 0) =
    Ok JNull /\
  eval (DataCache_get (fun _ => 0%Q) cache collision_key_2)
       (mkWorld (files (exec (DataCache_set (fun _ => 0%Q) cache collision_key_1
                                 (JStr "v")) (mkWorld ∅ [] [] 0))) [] [] 0) =
    Ok (JStr "v").
Proof.
  destruct collision_keys as [Hne [_ [_ Hpath]]].
  split; [exact Hne|]. rewrite !DataCache_get_eval. unfold exec.
  rewrite DataCache_set_run. simpl files. rewrite Hpath.
  rewrite lookup_insert_eq, lookup_empty. split; reflexivity.
Qed.

(** * Properties of the fetchers and of the facade *)

Arguments _get_cache_path : simpl never.
Arguments historical_cache_key : simpl never.
Arguments historical_params : simpl never.

Lemma assoc_None {A} (k : string) (d : list (string * A)) :
  ~ In k (map fst d) -> assoc k d = None.
Proof.
  induction d as [|[k' v] d IH]; simpl; [reflexivity|]. intros Hnotin.
  destruct (String.eqb_spec k k') as [->|Hne]; [exfalso; apply Hnotin; now left|].
  apply IH. intros Hin. apply Hnotin. now right.
Qed.

Section FacadeFacts.

Variable clock : nat -> Q.
Variable utcnow : nat -> string.
Variable fromtimestamp : Q -> result string.
Variable coingecko_http : nat -> request -> option json.
Variable coinmarketcap_http : nat -> request -> option json.

(** The whole of a run of [get]: the value, and a world that differs from
    the initial one in its log and its clock only. *)
Lemma DataCache_get_run self key w :
  exists w1,
    DataCache_get clock self key w =
      (Ok (cache_read (clock (ticks w)) (files w !! _get_cache_path self key)), w1) /\
    files w1 = files w /\ requests w1 = requests w.
Proof.
  pose proof (DataCache_get_eval clock self key w) as He.
  destruct (DataCache_get_exec clock self key w) as [Hf Hr].
  unfold eval in He. unfold exec in Hf, Hr.
  destruct (DataCache_get clock self key w) as [r w1]. simpl in *. subst r.
  now exists w1.
Qed.

(** C5. A timeframe label outside the table makes [aggregate_to_timeframe]
    return the empty list, and a source other than the two providers makes
    [get_bitcoin_price] and [get_market_data] return [None]; each of these
    runs returns normally and leaves the world as it was but for one ERROR
    record in the log. *)
Theorem invalid_selectors_logged
    (prices : list (Z * pyfloat)) (timeframe source : string) (w : World)
    (Htimeframe : ~ In timeframe (map fst TIMEFRAMES))
    (Hsource : source <> "coingecko" /\ source <> "coinmarketcap") :
  let logged msg :=
    mkWorld (files w) (logs w ++ [(ERROR, msg)]) (requests w) (ticks w) in
  aggregate_to_timeframe prices timeframe w =
    (Ok [], logged ("Invalid timeframe: " +:+ timeframe)) /\
  DataFetcher_get_bitcoin_price clock utcnow coingecko_http coinmarketcap_http source w =
    (Ok JNull, logged ("Unknown source: " +:+ source)) /\
  DataFetcher_get_market_data clock utcnow coingecko_http coinmarketcap_http source w =
    (Ok JNull, logged ("Unknown source: " +:+ source)).
Proof.
  destruct Hsource as [Hcg Hcmc].
  apply String.eqb_neq in Hcg, Hcmc.
  intros logged. split; [|split].
  - now apply aggregate_to_timeframe_invalid, assoc_None.
  - unfold DataFetcher_get_bitcoin_price. now rewrite Hcg, Hcmc.
  - unfold DataFetcher_get_market_data. now rewrite Hcg, Hcmc.
Qed.

(** C9. [get_historical_data] works with [min(days, 365)]: that number is at
    most 365 and is [days] itself when [days] does not exceed 365, and a call
    with [days] is a call with it. The cache is looked up under the key made
    from it; a fresh and true entry found there is returned, with no request
    sent and no file written. Otherwise exactly one request goes out, with it
    as the [days] parameter: an object that comes back is returned with it in
    the [days] field and stored in the file of the same key, any other body
    raises [AttributeError] and a failed request gives [None], both without a
    file written. *)
Theorem historical_days_clamped (days : Z) (w : World) :
  let effective := Z.min days 365 in
  let run := CoinGeckoFetcher_get_historical_data clock utcnow coingecko_http in
  let key := "coingecko_historical_" +:+ pretty effective +:+ "d" in
  let request :=
    (COINGECKO_BASE_URL +:+ "/coins/bitcoin/market_chart",
     [ ("vs_currency", JStr "usd");
       ("days", JNum (inject_Z effective));
       ("interval", JStr "daily") ]) in
  effective <= 365 /\
  effective = (if Z.leb days 365 then days else 365) /\
  run days w = run effective w /\
  exists cached w1,
    DataCache_get clock cache key w = (Ok cached, w1) /\
    if truthy cached then
      run days w = (Ok cached, w1) /\
      requests (exec (run days) w) = requests w /\
      files (exec (run days) w) = files w
    else
      requests (exec (run days) w) = requests w ++ [request] /\
      match coingecko_http (ticks w1) request with
      | Some (JDict body) =>
          let result :=
            JDict [ ("source", JStr "coingecko");
                    ("timestamp", JStr (utcnow (S (ticks w1))));
                    ("days", JNum (inject_Z effective));
                    ("prices",
                     match assoc "prices" body with Some v => v | None => JList [] end);
                    ("market_caps",
                     match assoc "market_caps" body with Some v => v | None => JList [] end);
                    ("volumes",
                     match assoc "volumes" body with Some v => v | None => JList [] end) ] in
          eval (run days) w = Ok result /\
          files (exec (run days) w) =
            <[_get_cache_path cache key :=
                Document (cache_entry (clock (S (S (ticks w1)))) result)]> (files w)
      | Some _ =>
          eval (run days) w = Raise AttributeError /\
          files (exec (run days) w) = files w
      | None =>
          eval (run days) w = Ok JNull /\
          files (exec (run days) w) = files w
      end.
Proof.
  intros effective run key request.
  split; [unfold effective; lia|].
  split; [unfold effective; destruct (Z.leb_spec days 365); lia|].
  split.
  { unfold run, CoinGeckoFetcher_get_historical_data.
    now replace (Z.min effective 365) with (Z.min days 365) by (unfold effective; lia). }
  change key with (historical_cache_key effective).
  change request with (COINGECKO_BASE_URL +:+ "/coins/bitcoin/market_chart",
                       historical_params effective).
  destruct (DataCache_get_run cache (historical_cache_key effective) w)
    as [w1 [Hget [Hf Hr]]].
  eexists _, w1. split; [exact Hget|].
  unfold run, eval, exec, CoinGeckoFetcher_get_historical_data. fold effective.
  unfold bind. rewrite Hget.
  destruct (truthy _).
  { cbn [fst snd]. repeat split; assumption. }
  unfold try_except, session_get.
  destruct (coingecko_http (ticks w1) _) as [body|]; simpl.
  - destruct body as [| | | | |d]; simpl; rewrite Hf, Hr; repeat split.
  - rewrite Hf, Hr. repeat split.
Qed.

(** The run of [get_ohlcv_data] for a label of the table outside the three
    day-scale ones, after the run of the cache lookup it starts with. *)
Lemma get_ohlcv_data_small (timeframe : string) (w w1 : World) (cached : json) :
  In timeframe ["1m"; "5m"; "15m"; "30m"; "1h"; "4h"] ->
  DataCache_get clock cache ("ohlcv_" +:+ timeframe) w = (Ok cached, w1) ->
  TimeframeDataHandler_get_ohlcv_data clock utcnow fromtimestamp coingecko_http
    timeframe w =
  if truthy cached then (Ok cached, w1)
  else (Ok JNull,
        mkWorld (files w1)
          (logs w1 ++ [(WARNING, "Timeframe " +:+ timeframe
                                   +:+ " not fully supported with free APIs")])
          (requests w1) (ticks w1)).
Proof.
  intros Hlabel Hget. unfold TimeframeDataHandler_get_ohlcv_data.
  assert (Htable : exists m, assoc timeframe TIMEFRAMES = Some m).
  { destruct Hlabel as [<-|[<-|[<-|[<-|[<-|[<-|[]]]]]]]; eexists; reflexivity. }
  destruct Htable as [m ->].
  assert (Hday : existsb (String.eqb timeframe) ["1d"; "7d"; "30d"] = false).
  { destruct Hlabel as [<-|[<-|[<-|[<-|[<-|[<-|[]]]]]]]; reflexivity. }
  rewrite Hday. unfold bind at 1. rewrite Hget.
  destruct (truthy cached); reflexivity.
Qed.

(** C10, as amended. For each of the labels 1m, 5m, 15m, 30m, 1h and 4h,
    which [get_supported_timeframes] lists among its nine labels, [get_ohlcv]
    sends no request and writes no file; it returns what the cache holds
    under the key of the label when that is fresh and true, and otherwise
    returns [None] after logging a warning. *)
Theorem ohlcv_small_timeframes (timeframe : string) (w : World)
    (Hlabel : In timeframe ["1m"; "5m"; "15m"; "30m"; "1h"; "4h"]) :
  let run := DataFetcher_get_ohlcv clock utcnow fromtimestamp coingecko_http timeframe in
  let lookup := DataCache_get clock cache ("ohlcv_" +:+ timeframe) in
  DataFetcher_get_supported_timeframes =
    ["1m"; "5m"; "15m"; "30m"; "1h"; "4h"; "1d"; "7d"; "30d"] /\
  In timeframe DataFetcher_get_supported_timeframes /\
  requests (exec run w) = requests w /\
  files (exec run w) = files w /\
  exists cached,
    eval lookup w = Ok cached /\
    if truthy cached then eval run w = Ok cached
    else eval run w = Ok JNull /\
         logs (exec run w) =
         logs (exec lookup w)
           ++ [(WARNING, "Timeframe " +:+ timeframe
                           +:+ " not fully supported with free APIs")].
Proof.
  intros run lookup.
  split; [reflexivity|].
  split.
  { unfold DataFetcher_get_supported_timeframes. simpl.
    destruct Hlabel as [<-|[<-|[<-|[<-|[<-|[<-|[]]]]]]]; tauto. }
  destruct (DataCache_get_run cache ("ohlcv_" +:+ timeframe) w) as [w1 [Hget [Hf Hr]]].
  pose proof (get_ohlcv_data_small timeframe w w1 _ Hlabel Hget) as Hrun.
  unfold run, lookup, eval, exec, DataFetcher_get_ohlcv. rewrite Hrun, Hget.
  set (cached := cache_read _ _).
  destruct (truthy cached) eqn:Htruthy; simpl; rewrite ?Hf, ?Hr;
    (split; [reflexivity|]); (split; [reflexivity|]);
    exists cached; rewrite Htruthy; repeat split; reflexivity.
Qed.

(** ** One candle per point: [_process_historical_to_ohlcv] *)

Lemma ohlcv_of_item_point (volumes : list (Q * Q)) (i : nat) (p : Q * Q) (stamp : string) :
  fromtimestamp (fst p / 1000)%Q = Ok stamp ->
  ohlcv_of_item fromtimestamp (JList (map point_json volumes)) i (point_json p) =
  Ok (uniform_candle stamp (snd p) (volume_at volumes i)).
Proof.
  intros Hstamp. unfold ohlcv_of_item, volume_at. simpl.
  rewrite length_map, nth_error_map.
  destruct (Nat.ltb_spec i (length volumes)) as [Hlt|Hge].
  - destruct (nth_error volumes i) as [v|] eqn:Hv.
    + simpl. now rewrite Hstamp.
    + apply nth_error_None in Hv. lia.
  - apply nth_error_None in Hge. rewrite Hge. now rewrite Hstamp.
Qed.

Lemma ohlcv_loop_points (render : Q -> string) (volumes points : list (Q * Q)) :
  (forall p, In p points -> fromtimestamp (fst p / 1000)%Q = Ok (render (fst p))) ->
  forall (i : nat) (acc : list json),
  exists cs,
    ohlcv_loop fromtimestamp (JList (map point_json volumes)) i
      (map point_json points) acc = Ok (acc ++ cs) /\
    length cs = length points /\
    forall j p, nth_error points j = Some p ->
      nth_error cs j =
      Some (uniform_candle (render (fst p)) (snd p) (volume_at volumes (i + j))).
Proof.
  induction points as [|p0 points IH]; intros Hrender i acc.
  - exists []. rewrite app_nil_r. repeat split. intros [|j] p; discriminate.
  - simpl map. simpl ohlcv_loop.
    rewrite (ohlcv_of_item_point volumes i p0 (render (fst p0)))
      by (apply Hrender; now left).
    destruct (IH (fun p Hp => Hrender p (or_intror Hp)) (S i)
                 (acc ++ [uniform_candle (render (fst p0)) (snd p0) (volume_at volumes i)]))
      as [cs [Hrun [Hlen Hnth]]].
    exists (uniform_candle (render (fst p0)) (snd p0) (volume_at volumes i) :: cs).
    split; [now rewrite Hrun, <- app_assoc|].
    split; [simpl; now rewrite Hlen|].
    intros [|j] p Hp; simpl in Hp |- *.
    + injection Hp as <-. now rewrite Nat.add_0_r.
    + rewrite (Hnth j p Hp). now rewrite Nat.add_succ_r.
Qed.

(** C6. Applied to a series of points [[timestampMillis, price]] and an
    index-aligned series of volumes (possibly absent or shorter), with
    timestamps that [datetime.fromtimestamp] renders,
    [_process_historical_to_ohlcv] returns one candle per point, in the order
    of the points, whose open, high, low and close are the price of the point
    and whose volume is the volume at the same position, or 0 when the
    volumes stop short of it. *)
Theorem process_historical_uniform
    (d : list (string * json)) (points volumes : list (Q * Q)) (render : Q -> string)
    (Hprices : assoc "prices" d = Some (JList (map point_json points)))
    (Hvolumes : match assoc "volumes" d with Some v => v | None => JList [] end
                = JList (map point_json volumes))
    (Hrender : forall p, In p points ->
                 fromtimestamp (fst p / 1000)%Q = Ok (render (fst p))) :
  exists candles,
    _process_historical_to_ohlcv fromtimestamp (JDict d) = Ok (JList candles) /\
    length candles = length points /\
    forall i p, nth_error points i = Some p ->
      nth_error candles i =
      Some (JDict [ ("timestamp", JStr (render (fst p)));
                    ("open", JNum (snd p));
                    ("high", JNum (snd p));
                    ("low", JNum (snd p));
                    ("close", JNum (snd p));
                    ("volume", JNum (match nth_error volumes i with
                                     | Some v => snd v
                                     | None => 0%Q
                                     end)) ]).
Proof.
  destruct (ohlcv_loop_points render volumes points Hrender 0%nat [])
    as [cs [Hrun [Hlen Hnth]]].
  exists cs. split; [|split; [exact Hlen|exact Hnth]].
  unfold _process_historical_to_ohlcv, py_get. rewrite Hprices, Hvolumes.
  cbn [py_iter]. now rewrite Hrun.
Qed.

End FacadeFacts.

(** A run of the amended C10 for the label 1h in an empty cache directory. *)
Lemma ohlcv_small_timeframes_witness :
  In "1h" ["1m"; "5m"; "15m"; "30m"; "1h"; "4h"] /\
  requests (exec (DataFetcher_get_ohlcv (fun _ => 0%Q) (fun _ => "")
                    (fun _ => Ok "") (fun _ _ => None) "1h")
                 (mkWorld ∅ [] [] 0)) = [].
Proof.
  assert (H : In "1h" ["1m"; "5m"; "15m"; "30m"; "1h"; "4h"]) by (simpl; tauto).
  split; [exact H|].
  exact (proj1 (proj2 (proj2 (ohlcv_small_timeframes (fun _ => 0%Q) (fun _ => "")
                         (fun _ => Ok "") (fun _ _ => None) "1h"
                         (mkWorld ∅ [] [] 0) H)))).
Defined.

(** C10, as stated, fails. With an entry stored under the key of the label
    1h, which is in the table and is not a day-scale label, [get_ohlcv]
    returns that entry and not [None]. *)
Lemma ohlcv_small_timeframes_counterexample :
  In "1h" (map fst TIMEFRAMES) /\
  ~ In "1h" ["1d"; "7d"; "30d"] /\
  eval (DataFetcher_get_ohlcv (fun _ => 0%Q) (fun _ => "") (fun _ => Ok "")
          (fun _ _ => None) "1h")
       (exec (DataCache_set (fun _ => 0%Q) cache "ohlcv_1h"
                (JDict [("ohlcv", JList [])]))
             (mkWorld ∅ [] [] 0)) =
  Ok (JDict [("ohlcv", JList [])]).
Proof.
  split; [simpl; tauto|].
  split; [simpl; intros [H|[H|[H|[]]]]; discriminate|].
  vm_compute. reflexivity.
Qed.

(** A run of C6: the single point (t, 50000) without a volume series gives
    the single candle with open, high, low and close 50000 and volume 0. *)
Lemma process_historical_uniform_witness :
  _process_historical_to_ohlcv (fun _ => Ok "2023-11-14T22:13:20")
    (JDict [("prices", JList [JList [JNum 1700000000000; JNum 50000]])]) =
  Ok (JList [JDict [ ("timestamp", JStr "2023-11-14T22:13:20");
                     ("open", JNum 50000);
                     ("high", JNum 50000);
                     ("low", JNum 50000);
                     ("close", JNum 50000);
                     ("volume", JNum 0) ]]).
Proof.
  destruct (process_historical_uniform (fun _ => Ok "2023-11-14T22:13:20")
              [("prices", JList [JList [JNum 1700000000000; JNum 50000]])]
              [(1700000000000%Q, 50000%Q)] [] (fun _ => "2023-11-14T22:13:20")
              eq_refl eq_refl (fun _ _ => eq_refl))
    as [candles [Hrun [Hlen Hnth]]].
  rewrite Hrun. f_equal. f_equal.
  destruct candles as [|c [|c' candles]]; try discriminate.
  specialize (Hnth 0%nat _ eq_refl). simpl in Hnth. now injection Hnth as ->.
Defined.

(** C6 as written, for every series of points, fails: the single point
    (10^15, 50000), whose timestamp in milliseconds lies in the year 33658,
    makes [datetime.fromtimestamp] raise [ValueError], and
    [_process_historical_to_ohlcv] raises it instead of returning a candle. *)
Lemma process_historical_uniform_counterexample :
  _process_historical_to_ohlcv (fromtimestamp_year_33658 (fun _ => Ok ""))
    (JDict [("prices", JList [JList [JNum 1000000000000000; JNum 50000]])]) =
  Raise ValueError.
Proof. reflexivity. Qed.

(** A run of C5: the label 2h and the source binance. *)
Lemma invalid_selectors_logged_witness :
  aggregate_to_timeframe [(0, Finite 100)] "2h" (mkWorld ∅ [] [] 0) =
    (Ok [], mkWorld ∅ [(ERROR, "Invalid timeframe: 2h")] [] 0) /\
  DataFetcher_get_bitcoin_price (fun _ => 0%Q) (fun _ => "") (fun _ _ => None)
    (fun _ _ => None) "binance" (mkWorld ∅ [] [] 0) =
    (Ok JNull, mkWorld ∅ [(ERROR, "Unknown source: binance")] [] 0).
Proof.
  assert (Htf : ~ In "2h" (map fst TIMEFRAMES))
    by (simpl; intros H; repeat destruct H as [H|H]; try discriminate; exact H).
  assert (Hsrc : "binance" <> "coingecko" /\ "binance" <> "coinmarketcap")
    by (split; discriminate).
  destruct (invalid_selectors_logged (fun _ => 0%Q) (fun _ => "") (fun _ _ => None)
              (fun _ _ => None) [(0, Finite 100)] "2h" "binance" (mkWorld ∅ [] [] 0)
              Htf Hsrc) as [Hagg [Hprice _]].
  split; [exact Hagg|exact Hprice].
Defined.

(** * Further properties of the aggregator *)

Lemma last_In {A} (l : list A) (d : A) : In (List.last l d) (d :: l).
Proof.
  induction l as [|a l IH]; [now left|].
  destruct l as [|b l]; [right; now left|].
  change (List.last (a :: b :: l) d) with (List.last (b :: l) d).
  destruct IH as [E|Hin]; [now left|right; now right].
Qed.

(** A candle of the result is the summary of a bucket that is not empty. *)
Lemma aggregate_values_points w l c :
  In c (sorted (dict_values (aggregate_loop w l))) ->
  exists t0 p0 rest,
    bucket_points w (timestamp c) l = (t0, p0) :: rest /\
    c = mkCandle (timestamp c) p0
          (fold_left py_max (map snd rest) p0)
          (fold_left py_min (map snd rest) p0)
          (List.last (map snd rest) p0) 0
          (Z.of_nat (length ((t0, p0) :: rest))).
Proof.
  intros Hc. apply aggregate_values_summary in Hc. unfold summary in Hc.
  destruct (bucket_points w (timestamp c) l) as [|[t0 p0] rest]; [discriminate|].
  exists t0, p0, rest. split; [reflexivity|]. now injection Hc as <-.
Qed.

(** X1. Every candle of the result counts at least one point; for a label
    of the table its timestamp is a multiple of the width of the bucket in
    seconds and, when no price of its bucket is NaN, low is at most open and
    close, which are at most high. *)
Theorem aggregate_candle_bounds
    (prices : list (Z * pyfloat)) (timeframe : string) (w : World) :
  exists candles,
    eval (aggregate_to_timeframe prices timeframe) w = Ok candles /\
    Forall (fun c => 1 <= count c) candles /\
    match assoc timeframe TIMEFRAMES with
    | Some minutes =>
        Forall (fun c =>
                  (minutes * 60 | timestamp c) /\
                  ((forall p, In p (bucket_points (minutes * 60) (timestamp c) prices) ->
                              snd p <> NaN) ->
                   float_le (low c) (open c) /\ float_le (open c) (high c) /\
                   float_le (low c) (close c) /\ float_le (close c) (high c)))
               candles
    | None => candles = []
    end.
Proof.
  unfold eval. destruct (assoc timeframe TIMEFRAMES) as [minutes|] eqn:Htf.
  - rewrite (aggregate_to_timeframe_valid _ _ _ _ Htf). simpl.
    eexists. split; [reflexivity|]. split; apply List.Forall_forall; intros c Hc;
      apply aggregate_values_points in Hc as [t0 [p0 [rest [Hpts Hc]]]].
    + rewrite Hc. simpl. lia.
    + split.
      * assert (Hin : In (t0, p0) (bucket_points (minutes * 60) (timestamp c) prices))
          by (rewrite Hpts; now left).
        apply bucket_points_In in Hin as [_ Hb]. rewrite <- Hb.
        unfold bucket_of. apply Z.divide_factor_r.
      * rewrite Hpts. intros Hnan.
        assert (Hnan' : forall x, In x (p0 :: map snd rest) -> x <> NaN).
        { intros x Hx.
          change (p0 :: map snd rest) with (map snd ((t0, p0) :: rest)) in Hx.
          apply in_map_iff in Hx as [p [<- Hp]]. now apply Hnan. }
        pose proof (fold_py_max_bound _ _ Hnan') as Hmax.
        pose proof (fold_py_min_bound _ _ Hnan') as Hmin.
        pose proof (last_In (map snd rest) p0) as Hlast.
        rewrite Hc. simpl.
        repeat split; try (apply Hmax || apply Hmin); try (now left); exact Hlast.
  - rewrite (aggregate_to_timeframe_invalid _ _ _ Htf). simpl.
    exists []. repeat split; constructor.
Qed.

(** ** The counts add up to the number of points *)

Lemma total_count_alter f k d :
  total_count (dict_values (dict_alter f k d)) =
  total_count (dict_values d) +
  match dict_lookup k d with
  | Some c => count (f c) - count c
  | None => 0
  end.
Proof.
  induction d as [|[k0 c0] d IH]; simpl; [reflexivity|].
  destruct (Z.eqb k k0); simpl; [lia|]. rewrite IH. lia.
Qed.

Lemma total_count_add k c d :
  total_count (dict_values (dict_add k c d)) = total_count (dict_values d) + count c.
Proof.
  unfold dict_add, dict_values. induction d as [|[k0 c0] d IH]; simpl; [lia|].
  rewrite IH. lia.
Qed.

Lemma total_count_step w d p :
  total_count (dict_values (aggregate_step w d p)) = total_count (dict_values d) + 1.
Proof.
  destruct p as [ts price]. unfold aggregate_step.
  destruct (dict_lookup (bucket_of w ts) d) as [c|] eqn:Hb;
    rewrite total_count_alter.
  - rewrite dict_lookup_alter, Z.eqb_refl, Hb, total_count_alter, Hb. simpl. lia.
  - rewrite dict_lookup_add, Hb, Z.eqb_refl, total_count_add. simpl. lia.
Qed.

Lemma total_count_loop w l :
  total_count (dict_values (aggregate_loop w l)) = Z.of_nat (length l).
Proof.
  induction l as [|p l IH] using rev_ind; [reflexivity|].
  rewrite aggregate_loop_snoc, total_count_step, IH, length_app. simpl. lia.
Qed.

Lemma total_count_perm l l' : Permutation l l' -> total_count l = total_count l'.
Proof. induction 1; simpl; lia. Qed.

Lemma total_count_lower (cs : list candle) :
  Forall (fun c => 1 <= count c) cs -> Z.of_nat (length cs) <= total_count cs.
Proof. induction 1 as [|c cs Hc _ IH]; simpl; lia. Qed.

(** X2. For a label of the table the counts of the candles add up to the
    number of input points: every point is counted once. Hence there are at
    most as many candles as points, and no candle exactly when there is no
    point. *)
Theorem aggregate_count_total
    (prices : list (Z * pyfloat)) (timeframe : string) (minutes : Z) (w : World)
    (Hvalid : assoc timeframe TIMEFRAMES = Some minutes) :
  exists candles,
    eval (aggregate_to_timeframe prices timeframe) w = Ok candles /\
    total_count candles = Z.of_nat (length prices) /\
    (length candles <= length prices)%nat /\
    (candles = [] <-> prices = []).
Proof.
  unfold eval. rewrite (aggregate_to_timeframe_valid _ _ _ _ Hvalid). simpl.
  set (candles := sorted (dict_values (aggregate_loop (minutes * 60) prices))).
  assert (Htotal : total_count candles = Z.of_nat (length prices)).
  { unfold candles. rewrite <- (total_count_perm _ _ (sorted_perm _)).
    apply total_count_loop. }
  assert (Hpos : Forall (fun c => 1 <= count c) candles).
  { apply List.Forall_forall. intros c Hc.
    apply aggregate_values_points in Hc as [t0 [p0 [rest [_ ->]]]]. simpl. lia. }
  apply total_count_lower in Hpos.
  exists candles. split; [reflexivity|]. split; [exact Htotal|]. split; [lia|].
  split.
  - intros E. rewrite E in Htotal. simpl in Htotal.
    destruct prices; [reflexivity|simpl in Htotal; lia].
  - intros E. unfold candles. now rewrite E.
Qed.

(** ** What the order of the input decides *)

Lemma filter_perm {A} (f : A -> bool) (l l' : list A) :
  Permutation l l' -> Permutation (List.filter f l) (List.filter f l').
Proof.
  induction 1 as [|x l l' _ IH|x y l|l l' l'' _ IH1 _ IH2]; simpl.
  - constructor.
  - destruct (f x); [now constructor|exact IH].
  - destruct (f x), (f y); try reflexivity. apply perm_swap.
  - now transitivity (List.filter f l').
Qed.

(** Strictly ascending lists with the same members are equal. *)
Lemma strictly_sorted_ext (l1 l2 : list Z) :
  StronglySorted Z.lt l1 -> StronglySorted Z.lt l2 ->
  (forall x, In x l1 <-> In x l2) -> l1 = l2.
Proof.
  intros H1. revert l2. induction H1 as [|a l1 Hs1 IH Ha]; intros l2 H2 Hmem.
  - destruct l2 as [|b l2]; [reflexivity|]. exfalso. apply (Hmem b). now left.
  - destruct H2 as [|b l2 Hs2 Hb]; [exfalso; apply (Hmem a); now left|].
    rewrite List.Forall_forall in Ha, Hb.
    assert (a = b).
    { destruct (proj1 (Hmem a) (or_introl eq_refl)) as [E|Hin]; [now symmetry|].
      destruct (proj2 (Hmem b) (or_introl eq_refl)) as [E|Hin']; [exact E|].
      specialize (Ha b Hin'). specialize (Hb a Hin). lia. }
    subst b. f_equal. apply IH; [exact Hs2|].
    intros x. split; intros Hx.
    + destruct (proj1 (Hmem x) (or_intror Hx)) as [E|Hin]; [|exact Hin].
      specialize (Ha x Hx). lia.
    + destruct (proj2 (Hmem x) (or_intror Hx)) as [E|Hin]; [|exact Hin].
      specialize (Hb x Hx). lia.
Qed.

Lemma aggregate_timestamps_sorted w l :
  StronglySorted Z.lt (map timestamp (sorted (dict_values (aggregate_loop w l)))).
Proof.
  apply sorted_strict; [apply sorted_sorted|].
  eapply Permutation_NoDup.
  - apply Permutation_map. apply sorted_perm.
  - rewrite aggregate_loop_timestamps. apply aggregate_loop_keys.
Qed.

Lemma aggregate_timestamps_In w l k :
  In k (map timestamp (sorted (dict_values (aggregate_loop w l)))) <->
  exists p, In p l /\ bucket_of w (fst p) = k.
Proof.
  rewrite in_map_iff. split.
  - intros [c [<- Hc]].
    apply aggregate_values_points in Hc as [t0 [p0 [rest [Hpts _]]]].
    exists (t0, p0). apply bucket_points_In. rewrite Hpts. now left.
  - intros [p [Hp Hk]].
    assert (Hpts : In p (bucket_points w k l)) by now apply bucket_points_In.
    destruct (summary w k l) as [c|] eqn:Hs.
    + pose proof (summary_timestamp _ _ _ _ Hs) as Hts.
      exists c. split; [exact Hts|].
      apply aggregate_values_summary. now rewrite Hts.
    + unfold summary in Hs.
      destruct (bucket_points w k l) as [|[t0 q0] r]; [destruct Hpts|discriminate].
Qed.

(** X3. For a label of the table, rearranging the input leaves the buckets
    and, in each bucket, the count and the volume as they are; it leaves the
    high and the low as they are in every bucket none of whose prices is NaN.
    There the order of the input decides open and close only. *)
Theorem aggregate_order_independent
    (prices prices' : list (Z * pyfloat)) (timeframe : string) (minutes : Z) (w : World)
    (Hvalid : assoc timeframe TIMEFRAMES = Some minutes)
    (Hperm : Permutation prices prices') :
  exists candles candles',
    eval (aggregate_to_timeframe prices timeframe) w = Ok candles /\
    eval (aggregate_to_timeframe prices' timeframe) w = Ok candles' /\
    map timestamp candles = map timestamp candles' /\
    forall c c', In c candles -> In c' candles' -> timestamp c = timestamp c' ->
      count c = count c' /\ volume c = volume c' /\
      ((forall p, In p (bucket_points (minutes * 60) (timestamp c) prices) ->
                  snd p <> NaN) ->
       float_eq (high c) (high c') /\ float_eq (low c) (low c')).
Proof.
  unfold eval. rewrite !(aggregate_to_timeframe_valid _ _ _ _ Hvalid). simpl.
  set (width := minutes * 60).
  eexists _, _. split; [reflexivity|]. split; [reflexivity|]. split.
  - apply strictly_sorted_ext; try apply aggregate_timestamps_sorted.
    intros k. rewrite !aggregate_timestamps_In.
    split; intros [p [Hp Hk]]; exists p; split; try exact Hk.
    + now apply (Permutation_in _ Hperm).
    + now apply (Permutation_in _ (Permutation_sym Hperm)).
  - intros c c' Hc Hc' Hts.
    apply aggregate_values_points in Hc as [t0 [p0 [rest [Hpts Hc]]]].
    apply aggregate_values_points in Hc' as [t0' [p0' [rest' [Hpts' Hc']]]].
    assert (Hpp : Permutation ((t0, p0) :: rest) ((t0', p0') :: rest')).
    { rewrite <- Hpts, <- Hpts', Hts. now apply filter_perm. }
    assert (Hvals : Permutation (p0 :: map snd rest) (p0' :: map snd rest'))
      by exact (Permutation_map snd Hpp).
    rewrite Hpts. rewrite Hc, Hc'. simpl. split; [|split; [reflexivity|]].
    + apply Permutation_length in Hpp. simpl in Hpp. lia.
    + intros Hnan.
      assert (Hnan1 : forall x, In x (p0 :: map snd rest) -> x <> NaN).
      { intros x Hx.
        change (p0 :: map snd rest) with (map snd ((t0, p0) :: rest)) in Hx.
        apply in_map_iff in Hx as [p [<- Hp]]. now apply Hnan. }
      assert (Hnan2 : forall x, In x (p0' :: map snd rest') -> x <> NaN).
      { intros x Hx. apply Hnan1. now apply (Permutation_in _ (Permutation_sym Hvals)). }
      pose proof (fold_py_max_In (map snd rest) p0) as Hmax_in.
      pose proof (fold_py_max_In (map snd rest') p0') as Hmax_in'.
      pose proof (fold_py_min_In (map snd rest) p0) as Hmin_in.
      pose proof (fold_py_min_In (map snd rest') p0') as Hmin_in'.
      pose proof (fold_py_max_bound _ _ Hnan1) as Hmax.
      pose proof (fold_py_max_bound _ _ Hnan2) as Hmax'.
      pose proof (fold_py_min_bound _ _ Hnan1) as Hmin.
      pose proof (fold_py_min_bound _ _ Hnan2) as Hmin'.
      unfold float_eq. repeat split.
      * apply Hmax'. now apply (Permutation_in _ Hvals).
      * apply Hmax. now apply (Permutation_in _ (Permutation_sym Hvals)).
      * apply Hmin. now apply (Permutation_in _ (Permutation_sym Hvals)).
      * apply Hmin'. now apply (Permutation_in _ Hvals).
Qed.

Lemma filter_sorted {A} (R : A -> A -> Prop) (f : A -> bool) (l : list A) :
  StronglySorted R l -> StronglySorted R (List.filter f l).
Proof.
  induction 1 as [|a l Hs IH Ha]; simpl; [constructor|].
  destruct (f a); [|exact IH]. constructor; [exact IH|].
  rewrite List.Forall_forall in Ha |- *. intros x Hx.
  apply List.filter_In in Hx as [Hx _]. now apply Ha.
Qed.

Lemma last_cons_default {A} (l : list A) (a d : A) :
  List.last (a :: l) d = List.last l a.
Proof.
  revert a d. induction l as [|b l IH]; intros a d; [reflexivity|].
  change (List.last (a :: b :: l) d) with (List.last (b :: l) d).
  now rewrite !IH.
Qed.

Lemma chronological_last (l : list (Z * pyfloat)) (d : Z * pyfloat) :
  StronglySorted chronological (d :: l) ->
  forall p, In p (d :: l) -> fst p <= fst (List.last l d).
Proof.
  revert d. induction l as [|a l IH]; intros d Hs p Hp.
  - destruct Hp as [<-|[]]. simpl. lia.
  - inversion Hs as [|? ? Hs' Hd]; subst.
    assert (Hlast : forall q, In q (a :: l) -> fst q <= fst (List.last l a))
      by exact (IH a Hs').
    rewrite last_cons_default.
    destruct Hp as [<-|Hp]; [|now apply Hlast].
    rewrite List.Forall_forall in Hd.
    pose proof (Hd a (or_introl eq_refl)) as Hda. unfold chronological in Hda.
    pose proof (Hlast a (or_introl eq_refl)). lia.
Qed.

(** X4. When the points arrive in the order of their timestamps, open is the
    price of a point of the bucket with the least timestamp and close the
    price of one with the greatest. *)
Theorem aggregate_chronological
    (prices : list (Z * pyfloat)) (timeframe : string) (minutes : Z) (w : World)
    (Hvalid : assoc timeframe TIMEFRAMES = Some minutes)
    (Hsorted : StronglySorted chronological prices) :
  exists candles,
    eval (aggregate_to_timeframe prices timeframe) w = Ok candles /\
    forall c, In c candles ->
      exists first last,
        In first prices /\ In last prices /\
        bucket_of (minutes * 60) (fst first) = timestamp c /\
        bucket_of (minutes * 60) (fst last) = timestamp c /\
        open c = snd first /\ close c = snd last /\
        forall p, In p prices -> bucket_of (minutes * 60) (fst p) = timestamp c ->
          fst first <= fst p <= fst last.
Proof.
  unfold eval. rewrite (aggregate_to_timeframe_valid _ _ _ _ Hvalid). simpl.
  eexists. split; [reflexivity|]. intros c Hc.
  apply aggregate_values_points in Hc as [t0 [p0 [rest [Hpts Hc]]]].
  assert (Hs : StronglySorted chronological ((t0, p0) :: rest))
    by (rewrite <- Hpts; now apply filter_sorted).
  assert (Hlast_in : In (List.last rest (t0, p0))
                        (bucket_points (minutes * 60) (timestamp c) prices))
    by (rewrite Hpts; apply last_In).
  assert (Hfirst_in : In (t0, p0) (bucket_points (minutes * 60) (timestamp c) prices))
    by (rewrite Hpts; now left).
  apply bucket_points_In in Hlast_in as [Hl1 Hl2].
  apply bucket_points_In in Hfirst_in as [Hf1 Hf2].
  exists (t0, p0), (List.last rest (t0, p0)).
  repeat split; try assumption.
  - rewrite Hc. reflexivity.
  - rewrite Hc. simpl. clear. revert t0 p0.
    induction rest as [|[t1 q1] rest IH]; intros; [reflexivity|].
    simpl map. rewrite !last_cons_default. exact (IH t1 q1).
  - assert (Hp : In p ((t0, p0) :: rest))
      by (rewrite <- Hpts; now apply bucket_points_In).
    inversion Hs as [|? ? _ Hall]; subst. rewrite List.Forall_forall in Hall.
    destruct Hp as [<-|Hp]; [simpl; lia|]. exact (Hall p Hp).
  - apply (chronological_last rest (t0, p0) Hs).
    rewrite <- Hpts. now apply bucket_points_In.
Qed.

Lemma assoc_Some_iff {A} (k : string) (d : list (string * A)) :
  In k (map fst d) <-> exists v, assoc k d = Some v.
Proof.
  induction d as [|[k' v'] d IH]; simpl.
  - split; [tauto|]. intros [v Hv]. discriminate.
  - destruct (String.eqb_spec k k') as [->|Hne].
    + split; [intros _; now exists v'|intros _; now left].
    + rewrite <- IH. split; [intros [E|Hin]; [congruence|exact Hin]|now right].
Qed.

(** X5. The labels [get_supported_timeframes] lists are exactly the labels
    [aggregate_to_timeframe] accepts, that is, runs on without logging an
    error. *)
Theorem supported_timeframes_accepted
    (prices : list (Z * pyfloat)) (timeframe : string) (w : World) :
  In timeframe DataFetcher_get_supported_timeframes <->
  exec (aggregate_to_timeframe prices timeframe) w = w.
Proof.
  unfold DataFetcher_get_supported_timeframes, exec. rewrite assoc_Some_iff.
  destruct (assoc timeframe TIMEFRAMES) as [minutes|] eqn:Htf.
  - rewrite (aggregate_to_timeframe_valid _ _ _ _ Htf). simpl.
    split; [reflexivity|]. intros _. now exists minutes.
  - rewrite (aggregate_to_timeframe_invalid _ _ _ Htf). simpl. split.
    + intros [v Hv]. discriminate.
    + intros E. apply (f_equal logs) in E. simpl in E.
      apply (f_equal (@length _)) in E. rewrite length_app in E. simpl in E. lia.
Qed.

(** * Further properties of the cache store *)

Section CacheMore.

Variable clock : nat -> Q.

(** X6. [get] only reads: it writes or removes no file and sends no request.
    When the file of the key is absent it returns [None] and leaves the world
    as it is; when the file is there, whatever it holds, the errors of
    reading it are caught and [get] returns a value after logging one record.
    A key is a string of bytes here, so that [key.encode()], which the source
    evaluates before the [try], succeeds. *)
Theorem cache_get_frame (self : DataCache) (key : string) (w : World) :
  match files w !! _get_cache_path self key with
  | None => DataCache_get clock self key w = (Ok JNull, w)
  | Some _ =>
      exists v w' record,
        DataCache_get clock self key w = (Ok v, w') /\
        files w' = files w /\ requests w' = requests w /\
        logs w' = logs w ++ [record]
  end.
Proof.
  unfold DataCache_get, bind, path_exists, try_except, json_load.
  destruct (files w !! _get_cache_path self key) as [[j|]|] eqn:Hf; simpl;
    rewrite ?Hf; simpl; try reflexivity;
    try (eexists _, _, _; repeat split; reflexivity).
  destruct j as [| | | | |d]; simpl;
    try (eexists _, _, _; repeat split; reflexivity).
  destruct (assoc "timestamp" d) as [[| | | | |]|]; simpl;
    try (eexists _, _, _; repeat split; reflexivity);
    destruct (Qlt_le_dec _ _); eexists _, _, _; repeat split; reflexivity.
Qed.

(** X7. A cache file that cannot be read (bytes that are not JSON, a document
    that is not an object, an object whose timestamp is not a number) is a
    miss: [get] returns [None], logs one warning and leaves the file where it
    is. *)
Theorem cache_get_unreadable
    (self : DataCache) (key : string) (w : World) (f : file)
    (Hfile : files w !! _get_cache_path self key = Some f)
    (Hbad : unreadable f) :
  exists e w',
    DataCache_get clock self key w = (Ok JNull, w') /\
    files w' = files w /\ requests w' = requests w /\
    logs w' = logs w ++ [(WARNING, "Error reading cache: " +:+ str_exn e)].
Proof.
  unfold DataCache_get, bind, path_exists, try_except, json_load.
  rewrite Hfile. simpl. rewrite Hfile.
  destruct f as [j|]; simpl;
    [|exists ValueError; eexists; repeat split; reflexivity].
  destruct j as [| | | | |d]; simpl in *;
    try (exists AttributeError; eexists; repeat split; reflexivity).
  destruct (assoc "timestamp" d) as [[| | | | |]|]; simpl in *;
    try contradiction; exists TypeError; eexists; repeat split; reflexivity.
Qed.

(** X8. [set] replaces the entry of its key: after [set(k, v1)] and then
    [set(k, v2)] the file of the key is the one the second call alone would
    have written, and a [get(k)] returns [v2] while less than five minutes
    have passed since the second call. *)
Theorem cache_set_overwrites
    (self : DataCache) (k : string) (v1 v2 : json) (w : World)
    (later_logs : list (level * string)) (later_requests : list request) (n : nat) :
  let after := exec (DataCache_set clock self k v2)
                    (exec (DataCache_set clock self k v1) w) in
  let T2 := clock (S (ticks w)) in
  files after =
    <[_get_cache_path self k := Document (cache_entry T2 v2)]> (files w) /\
  eval (DataCache_get clock self k)
       (mkWorld (files after) later_logs later_requests n) =
  Ok (if Qlt_le_dec (clock n - T2)%Q (CACHE_EXPIRY_MINUTES * 60)%Q then v2 else JNull).
Proof.
  intros after T2.
  assert (Hfiles : files after =
            <[_get_cache_path self k := Document (cache_entry T2 v2)]> (files w)).
  { unfold after, exec. rewrite !DataCache_set_run. simpl.
    apply insert_insert_eq. }
  split; [exact Hfiles|].
  rewrite DataCache_get_eval. cbn [files ticks]. rewrite Hfiles, lookup_insert_eq.
  simpl.
  destruct (Qlt_le_dec ((clock n - T2) / 60) CACHE_EXPIRY_MINUTES) as [Hlt|Hge];
    destruct (Qlt_le_dec (clock n - T2) (CACHE_EXPIRY_MINUTES * 60)) as [Hlt'|Hge'];
    try reflexivity; exfalso.
  - apply age_within_window in Hlt. apply (Qlt_not_le _ _ Hlt), Hge'.
  - apply age_within_window in Hlt'. apply (Qlt_not_le _ _ Hlt'), Hge.
Qed.

End CacheMore.

(** ** The shape of a cache path, and [clear] *)

Lemma le_bytes_length (len : nat) (n : Z) : length (MD5.le_bytes len n) = len.
Proof. revert n. induction len as [|len IH]; intros n; simpl; [reflexivity|now rewrite IH]. Qed.

Lemma le_bytes_range (len : nat) (n : Z) :
  Forall (fun b => 0 <= b < 256) (MD5.le_bytes len n).
Proof.
  revert n. induction len as [|len IH]; intros n; simpl; constructor.
  - apply Z.mod_pos_bound. lia.
  - apply IH.
Qed.

Lemma digest_bytes (msg : list Z) :
  length (MD5.digest msg) = 16%nat /\ Forall (fun b => 0 <= b < 256) (MD5.digest msg).
Proof.
  unfold MD5.digest. split.
  - rewrite !length_app, !le_bytes_length. reflexivity.
  - repeat (apply Forall_app; split); apply le_bytes_range.
Qed.

Lemma hex_digit_In (n : Z) :
  0 <= n < 16 ->
  In (MD5.hex_digit n) (String.list_ascii_of_string "0123456789abcdef").
Proof.
  intros Hn. unfold MD5.hex_digit. apply nth_In. simpl. lia.
Qed.

Lemma hex_shape (bs : list Z) :
  Forall (fun b => 0 <= b < 256) bs ->
  String.length (MD5.hex bs) = (2 * length bs)%nat /\
  Forall (fun c => In c (String.list_ascii_of_string "0123456789abcdef"))
         (String.list_ascii_of_string (MD5.hex bs)).
Proof.
  induction 1 as [|b bs Hb _ [IHlen IHall]]; simpl; [split; [reflexivity|constructor]|].
  split; [rewrite IHlen; lia|].
  constructor; [apply hex_digit_In; split; [apply Z.div_pos|apply Z.div_lt_upper_bound]; lia|].
  constructor; [apply hex_digit_In; apply Z.mod_pos_bound; lia|exact IHall].
Qed.

Lemma has_slash_app (s t : string) : has_slash (s +:+ t) = has_slash s || has_slash t.
Proof.
  induction s as [|c s IH]; [reflexivity|].
  change (String c s +:+ t) with (String c (s +:+ t)). simpl.
  rewrite IH. now rewrite orb_assoc.
Qed.

Lemma hex_no_slash (s : string) :
  Forall (fun c => In c (String.list_ascii_of_string "0123456789abcdef"))
         (String.list_ascii_of_string s) ->
  has_slash s = false.
Proof.
  induction s as [|c s IH]; simpl; [reflexivity|]. intros Hall.
  inversion Hall as [|? ? Hc Hs]; subst. rewrite (IH Hs), orb_false_r.
  simpl in Hc. repeat (destruct Hc as [<-|Hc]; [reflexivity|]). destruct Hc.
Qed.

Lemma strip_prefix_app (p s : string) : strip_prefix p (p +:+ s) = Some s.
Proof.
  induction p as [|c p IH]; [reflexivity|].
  change (String c p +:+ s) with (String c (p +:+ s)). simpl.
  now rewrite Ascii.eqb_refl.
Qed.

Lemma ends_with_json_app (s : string) : ends_with_json (s +:+ ".json") = true.
Proof.
  induction s as [|c s IH]; [reflexivity|].
  change (String c s +:+ ".json") with (String c (s +:+ ".json")).
  cbn [ends_with_json]. rewrite IH. apply orb_true_r.
Qed.

Lemma append_assoc (s t u : string) : (s +:+ t) +:+ u = s +:+ (t +:+ u).
Proof.
  induction s as [|c s IH]; [reflexivity|].
  change (String c s +:+ t) with (String c (s +:+ t)).
  change (String c (s +:+ t) +:+ u) with (String c ((s +:+ t) +:+ u)).
  change (String c s +:+ (t +:+ u)) with (String c (s +:+ (t +:+ u))).
  now rewrite IH.
Qed.

Lemma hexdigest_shape (key : string) :
  String.length (MD5.hexdigest key) = 32%nat /\
  Forall (fun c => In c (String.list_ascii_of_string "0123456789abcdef"))
         (String.list_ascii_of_string (MD5.hexdigest key)).
Proof.
  destruct (digest_bytes (MD5.encode key)) as [Hlen Hrange].
  destruct (hex_shape _ Hrange) as [Hhexlen Hhex].
  unfold MD5.hexdigest. split; [rewrite Hhexlen, Hlen; reflexivity|exact Hhex].
Qed.

Lemma cache_path_globbed (self : DataCache) (key : string) :
  is_cache_file self (_get_cache_path self key) = true.
Proof.
  destruct (hexdigest_shape key) as [_ Hhex].
  unfold is_cache_file, _get_cache_path.
  rewrite <- append_assoc, strip_prefix_app.
  rewrite has_slash_app, (hex_no_slash _ Hhex), ends_with_json_app. reflexivity.
Qed.

Lemma DataCache_get_absent (clock : nat -> Q) (self : DataCache) (key : string) (w : World) :
  files w !! _get_cache_path self key = None ->
  DataCache_get clock self key w = (Ok JNull, w).
Proof.
  intros Hf. unfold DataCache_get, bind, path_exists. now rewrite Hf.
Qed.

(** X9. Whatever the key, its cache file lies directly in the cache
    directory and is named by 32 lower-case hexadecimal digits followed by
    [.json]; it is one of the files [glob("*.json")] yields. *)
Theorem cache_path_shape (self : DataCache) (key : string) :
  exists h,
    _get_cache_path self key = cache_dir self +:+ "/" +:+ h +:+ ".json" /\
    String.length h = 32%nat /\
    Forall (fun c => In c (String.list_ascii_of_string "0123456789abcdef"))
           (String.list_ascii_of_string h) /\
    is_cache_file self (_get_cache_path self key) = true.
Proof.
  destruct (hexdigest_shape key) as [Hlen Hhex].
  exists (MD5.hexdigest key).
  split; [reflexivity|]. split; [exact Hlen|]. split; [exact Hhex|].
  apply cache_path_globbed.
Qed.

Lemma DataCache_clear_run (self : DataCache) (w : World) :
  DataCache_clear self w =
  (Ok tt,
   mkWorld (filter (fun entry : string * file => is_cache_file self entry.1 = false)
                   (files w))
           (logs w ++ [(INFO, "Cache cleared")]) (requests w) (ticks w)).
Proof. reflexivity. Qed.

(** X11. After [clear] every key misses: a [get] returns [None] whatever was
    stored before, for instance by a [set] of the same key, and whenever it
    is made. *)
Theorem cache_clear_then_get
    (clock : nat -> Q) (self : DataCache) (k0 k : string) (v : json) (w : World)
    (later_logs : list (level * string)) (later_requests : list request) (n : nat) :
  let stored := exec (DataCache_set clock self k0 v) w in
  let cleared := exec (DataCache_clear self) stored in
  DataCache_get clock self k (mkWorld (files cleared) later_logs later_requests n) =
  (Ok JNull, mkWorld (files cleared) later_logs later_requests n).
Proof.
  intros stored cleared. apply DataCache_get_absent. cbn [files].
  unfold cleared, exec. rewrite DataCache_clear_run. cbn [snd files].
  apply map_lookup_filter_None. right. intros f _. simpl.
  rewrite cache_path_globbed. discriminate.
Qed.

(** * Further properties of the fetchers *)

Section FetcherMore.

Variable clock : nat -> Q.
Variable utcnow : nat -> string.
Variable fromtimestamp : Q -> result string.
Variable coingecko_http : nat -> request -> option json.
Variable coinmarketcap_http : nat -> request -> option json.

Ltac unfold_operation :=
  unfold CoinGeckoFetcher_get_current_price, CoinGeckoFetcher_get_market_data,
    CoinGeckoFetcher_get_historical_data, CoinMarketCapFetcher_get_current_price,
    CoinMarketCapFetcher_get_cryptocurrency_info,
    CoinMarketCapFetcher_get_global_metrics.

(** The cache lookup an operation starts with. *)
Ltac run_lookup key w w1 Hget Hf Hr :=
  destruct (DataCache_get_run clock cache key w) as [w1 [Hget [Hf Hr]]].

Lemma operation_hit
    (days : Z) (key : string) (op : M json) (w w1 : World) (cached : json) :
  In (key, op) (cached_operations clock utcnow coingecko_http coinmarketcap_http days) ->
  DataCache_get clock cache key w = (Ok cached, w1) ->
  truthy cached = true ->
  op w = (Ok cached, w1).
Proof.
  intros Hop Hget Htruthy. unfold cached_operations in Hop. simpl in Hop.
  repeat (destruct Hop as [Hop|Hop];
          [injection Hop as <- <-; unfold_operation; unfold bind at 1;
           rewrite Hget, Htruthy; reflexivity|]).
  destruct Hop.
Qed.

(** X12. Each of the six fetching methods returns what the cache holds under
    its key when that is fresh and true: it then sends no request and writes
    no file, and does nothing beyond the cache lookup. *)
Theorem fetch_cache_hit
    (days : Z) (key : string) (op : M json) (w : World) (cached : json)
    (Hop : In (key, op)
              (cached_operations clock utcnow coingecko_http coinmarketcap_http days))
    (Hcached : eval (DataCache_get clock cache key) w = Ok cached)
    (Htruthy : truthy cached = true) :
  op w = (Ok cached, exec (DataCache_get clock cache key) w) /\
  requests (exec op w) = requests w /\
  files (exec op w) = files w.
Proof.
  run_lookup key w w1 Hget Hf Hr.
  unfold eval in Hcached. rewrite Hget in Hcached. simpl in Hcached.
  injection Hcached as Hcached. rewrite Hcached in Hget.
  pose proof (operation_hit days key op w w1 cached Hop Hget Htruthy) as Hrun.
  unfold exec. rewrite Hrun, Hget. simpl. repeat split; assumption.
Qed.

(** X13. When the cache has nothing fresh and true under the key and the
    upstream request fails, each of the six fetching methods returns [None]:
    it has sent one request, logs one error and writes no file. *)
Theorem fetch_upstream_failure
    (days : Z) (key : string) (op : M json) (w : World) (cached : json)
    (Hop : In (key, op)
              (cached_operations clock utcnow coingecko_http coinmarketcap_http days))
    (Hcached : eval (DataCache_get clock cache key) w = Ok cached)
    (Hfalsy : truthy cached = false)
    (Hdown : forall r,
       coingecko_http (ticks (exec (DataCache_get clock cache key) w)) r = None /\
       coinmarketcap_http (ticks (exec (DataCache_get clock cache key) w)) r = None) :
  eval op w = Ok JNull /\
  files (exec op w) = files w /\
  (exists r, requests (exec op w) = requests w ++ [r]) /\
  (exists msg, logs (exec op w) =
               logs (exec (DataCache_get clock cache key) w) ++ [(ERROR, msg)]).
Proof.
  run_lookup key w w1 Hget Hf Hr.
  unfold eval in Hcached. rewrite Hget in Hcached. simpl in Hcached.
  injection Hcached as Hcached. rewrite Hcached in Hget.
  unfold exec in Hdown. rewrite Hget in Hdown. simpl in Hdown.
  assert (Hrun : exists r msg,
            op w = (Ok JNull,
                    mkWorld (files w1) (logs w1 ++ [(ERROR, msg)])
                            (requests w1 ++ [r]) (S (ticks w1)))).
  { unfold cached_operations in Hop. simpl in Hop.
    repeat (destruct Hop as [Hop|Hop];
            [injection Hop as <- <-; unfold_operation; unfold bind at 1;
             rewrite Hget, Hfalsy; unfold try_except, bind at 1, session_get;
             rewrite ?(proj1 (Hdown _)), ?(proj2 (Hdown _)); simpl;
             eexists _, _; reflexivity|]).
    destruct Hop. }
  destruct Hrun as [r [msg Hrun]].
  unfold eval, exec. rewrite Hrun, Hget. simpl.
  split; [reflexivity|]. split; [exact Hf|]. split.
  - exists r. now rewrite Hr.
  - now exists msg.
Qed.

(** X14. When the cache has nothing fresh and true under the key and the
    upstream body is JSON but not an object, each of the six fetching
    methods raises [AttributeError]: the body is read with [.get], and the
    methods catch request errors only. Nothing is cached. *)
Theorem fetch_malformed_body_raises
    (days : Z) (key : string) (op : M json) (w : World) (cached body : json)
    (Hop : In (key, op)
              (cached_operations clock utcnow coingecko_http coinmarketcap_http days))
    (Hcached : eval (DataCache_get clock cache key) w = Ok cached)
    (Hfalsy : truthy cached = false)
    (Hbody : forall r,
       coingecko_http (ticks (exec (DataCache_get clock cache key) w)) r = Some body /\
       coinmarketcap_http (ticks (exec (DataCache_get clock cache key) w)) r = Some body)
    (Hshape : forall d, body <> JDict d) :
  eval op w = Raise AttributeError /\
  files (exec op w) = files w.
Proof.
  run_lookup key w w1 Hget Hf Hr.
  unfold eval in Hcached. rewrite Hget in Hcached. simpl in Hcached.
  injection Hcached as Hcached. rewrite Hcached in Hget.
  unfold exec in Hbody. rewrite Hget in Hbody. simpl in Hbody.
  assert (Hrun : exists w', op w = (Raise AttributeError, w') /\ files w' = files w1).
  { unfold cached_operations in Hop. simpl in Hop.
    repeat (destruct Hop as [Hop|Hop];
            [injection Hop as <- <-; unfold_operation; unfold bind at 1;
             rewrite Hget, Hfalsy; unfold try_except, bind at 1, session_get;
             rewrite ?(proj1 (Hbody _)), ?(proj2 (Hbody _));
             destruct body as [| | | | |d]; try (now destruct (Hshape d));
             simpl; eexists; split; reflexivity|]).
    destruct Hop. }
  destruct Hrun as [w' [Hrun Hf']].
  unfold eval, exec. rewrite Hrun. simpl. split; [reflexivity|congruence].
Qed.

(** The run of an operation that went upstream and came back with a value. *)
Lemma operation_fetched
    (days : Z) (key : string) (op : M json) (w w1 : World) (cached r : json) :
  In (key, op) (cached_operations clock utcnow coingecko_http coinmarketcap_http days) ->
  DataCache_get clock cache key w = (Ok cached, w1) ->
  truthy cached = false ->
  eval op w = Ok r -> r <> JNull ->
  exists w',
    op w = (Ok r, w') /\ truthy r = true /\
    files w' =
      <[_get_cache_path cache key :=
          Document (cache_entry (clock (Nat.pred (ticks w'))) r)]> (files w1).
Proof.
  intros Hop Hget Hfalsy Hresult Hsome.
  unfold cached_operations in Hop. simpl in Hop. unfold eval in Hresult.
  destruct (op w) as [res w'] eqn:Hrun. simpl in Hresult. subst res.
  exists w'. split; [reflexivity|]. revert Hrun.
  repeat (destruct Hop as [Hop|Hop];
          [injection Hop as <- <-; unfold_operation; unfold bind at 1;
           rewrite Hget, Hfalsy; unfold try_except, bind at 1, session_get;
           match goal with
           | |- context [match ?http (ticks w1) ?rq with _ => _ end] =>
               destruct (http (ticks w1) rq) as [[| | | | |d]|]
           end; simpl; try discriminate;
           try (intros [= E _]; now destruct Hsome);
           try match goal with
               | |- context [assoc "data" ?body] =>
                   destruct (assoc "data" body) as [[| | | | |]|]; simpl; try discriminate
               end;
           intros [= <- <-]; split; reflexivity|]).
  destruct Hop.
Qed.

(** X15. A value one of the six fetching methods has fetched is cached under
    the key of the method, and a further call made less than five minutes
    after it was stored returns the same value without sending a request. *)
Theorem fetch_then_cached
    (days : Z) (key : string) (op : M json) (w : World) (cached r : json)
    (later_logs : list (level * string)) (later_requests : list request) (n : nat)
    (Hop : In (key, op)
              (cached_operations clock utcnow coingecko_http coinmarketcap_http days))
    (Hcached : eval (DataCache_get clock cache key) w = Ok cached)
    (Hfalsy : truthy cached = false)
    (Hresult : eval op w = Ok r)
    (Hsome : r <> JNull)
    (Hfresh : (clock n - clock (Nat.pred (ticks (exec op w)))
               < CACHE_EXPIRY_MINUTES * 60)%Q) :
  let stored := clock (Nat.pred (ticks (exec op w))) in
  let again := mkWorld (files (exec op w)) later_logs later_requests n in
  files (exec op w) =
    <[_get_cache_path cache key := Document (cache_entry stored r)]> (files w) /\
  eval op again = Ok r /\
  requests (exec op again) = later_requests /\
  files (exec op again) = files (exec op w).
Proof.
  intros stored again.
  run_lookup key w w1 Hget Hf Hr.
  unfold eval in Hcached. rewrite Hget in Hcached. simpl in Hcached.
  injection Hcached as Hcached. rewrite Hcached in Hget.
  destruct (operation_fetched days key op w w1 cached r Hop Hget Hfalsy Hresult Hsome)
    as [w' [Hrun [Htruthy Hfiles]]].
  assert (Hexec : exec op w = w') by (unfold exec; now rewrite Hrun).
  unfold stored, again in *. rewrite Hexec in *. rewrite Hf in Hfiles.
  split; [exact Hfiles|].
  assert (Hlook : files w' !! _get_cache_path cache key =
                  Some (Document (cache_entry (clock (Nat.pred (ticks w'))) r)))
    by (rewrite Hfiles; apply lookup_insert_eq).
  run_lookup key (mkWorld (files w') later_logs later_requests n) w2 Hget2 Hf2 Hr2.
  cbn [files ticks requests] in Hget2, Hf2, Hr2.
  rewrite Hlook in Hget2. simpl cache_read in Hget2.
  destruct (Qlt_le_dec _ _) as [Hlt|Hge] in Hget2.
  - pose proof (operation_hit days key op _ w2 r Hop Hget2 Htruthy) as Hrun2.
    unfold eval, exec. rewrite Hrun2. simpl. rewrite Hf2, Hr2. repeat split.
  - exfalso. apply age_within_window in Hfresh. apply (Qlt_not_le _ _ Hfresh), Hge.
Qed.

Lemma try_except_all_ok {A} (m : M A) (handler : exn -> M A) (w : World) :
  (forall e w', exists v w'', handler e w' = (Ok v, w'')) ->
  exists v w', try_except m is_Exception handler w = (Ok v, w').
Proof.
  intros Hh. unfold try_except. destruct (m w) as [[a|e] w']; simpl.
  - now exists a, w'.
  - apply Hh.
Qed.

(** X16. [get_ohlcv] never raises: whatever the label, the content of the
    cache, the upstream answer and the rendering of dates, it returns a
    value; for a label that [get_supported_timeframes] does not list the
    value is [None], one error is logged, and the cache, the clock and the
    upstream are left alone. *)
Theorem get_ohlcv_never_raises (timeframe : string) (w : World) :
  let run := DataFetcher_get_ohlcv clock utcnow fromtimestamp coingecko_http timeframe in
  (exists v, eval run w = Ok v) /\
  (In timeframe DataFetcher_get_supported_timeframes \/
   run w = (Ok JNull,
            mkWorld (files w) (logs w ++ [(ERROR, "Invalid timeframe: " +:+ timeframe)])
                    (requests w) (ticks w))).
Proof.
  intros run. unfold run, DataFetcher_get_ohlcv, TimeframeDataHandler_get_ohlcv_data,
    DataFetcher_get_supported_timeframes, eval.
  destruct (assoc timeframe TIMEFRAMES) as [minutes|] eqn:Htf.
  - split; [|left; apply assoc_Some_iff; now exists minutes].
    run_lookup ("ohlcv_" +:+ timeframe) w w1 Hget Hf Hr.
    unfold bind at 1. rewrite Hget.
    destruct (truthy _); [eexists; reflexivity|].
    match goal with
    | |- context [try_except ?m is_Exception ?h w1] =>
        destruct (try_except_all_ok m h w1) as [v [w' Hrun]];
          [intros e w'; eexists _, _; reflexivity|rewrite Hrun; now exists v]
    end.
  - split; [now exists JNull|now right].
Qed.

(** The run of [get_historical_data] that misses the cache and gets an
    object from upstream. *)
Lemma historical_fetch_run (days : Z) (w : World) (body : list (string * json)) :
  files w !! _get_cache_path cache (historical_cache_key (Z.min days 365)) = None ->
  coingecko_http (ticks w)
    (COINGECKO_BASE_URL +:+ "/coins/bitcoin/market_chart",
     historical_params (Z.min days 365)) = Some (JDict body) ->
  let result :=
    JDict [ ("source", JStr "coingecko");
            ("timestamp", JStr (utcnow (S (ticks w))));
            ("days", JNum (inject_Z (Z.min days 365)));
            ("prices", match assoc "prices" body with Some v => v | None => JList [] end);
            ("market_caps",
             match assoc "market_caps" body with Some v => v | None => JList [] end);
            ("volumes",
             match assoc "volumes" body with Some v => v | None => JList [] end) ] in
  CoinGeckoFetcher_get_historical_data clock utcnow coingecko_http days w =
  (Ok result,
   mkWorld (<[_get_cache_path cache (historical_cache_key (Z.min days 365)) :=
                Document (cache_entry (clock (S (S (ticks w)))) result)]> (files w))
           ((logs w ++ [(INFO, "Cached data for key: "
                                 +:+ historical_cache_key (Z.min days 365))])
              ++ [(INFO, "Successfully fetched " +:+ pretty (Z.min days 365)
                           +:+ " days of historical data from CoinGecko")])
           (requests w ++ [(COINGECKO_BASE_URL +:+ "/coins/bitcoin/market_chart",
                            historical_params (Z.min days 365))])
           (S (S (S (ticks w))))).
Proof.
  intros Hmiss Hup result. unfold CoinGeckoFetcher_get_historical_data.
  unfold bind at 1. rewrite (DataCache_get_absent clock cache _ w Hmiss).
  cbn [truthy]. unfold try_except, bind at 1, session_get. rewrite Hup.
  reflexivity.
Qed.

(** The run of an operation that finds nothing fresh and true in the cache:
    one request goes out, whatever comes back. *)
Lemma operation_miss_request
    (days : Z) (key : string) (op : M json) (w w1 : World) (cached : json) :
  In (key, op) (cached_operations clock utcnow coingecko_http coinmarketcap_http days) ->
  DataCache_get clock cache key w = (Ok cached, w1) ->
  truthy cached = false ->
  exists rq, requests (exec op w) = requests w1 ++ [rq].
Proof.
  intros Hop Hget Hfalsy. unfold cached_operations in Hop. simpl in Hop.
  unfold exec. destruct (op w) as [res w'] eqn:Hrun. simpl. revert Hrun.
  repeat (destruct Hop as [Hop|Hop];
          [injection Hop as <- <-; unfold_operation; unfold bind at 1;
           rewrite Hget, Hfalsy; unfold try_except, bind at 1, session_get;
           match goal with
           | |- context [match ?http (ticks w1) ?rq with _ => _ end] =>
               destruct (http (ticks w1) rq) as [[| | | | |d]|]
           end; simpl;
           try match goal with
               | |- context [assoc "data" ?body] =>
                   destruct (assoc "data" body) as [[| | | | |]|]; simpl
               end;
           intros [= <- <-]; eexists; reflexivity|]).
  destruct Hop.
Qed.

(** X19. Each of the six fetching methods sends one request when the cache
    has nothing fresh and true under its key, and none otherwise: a call
    never sends a second request. *)
Theorem fetch_one_request_on_miss
    (days : Z) (key : string) (op : M json) (w : World)
    (Hop : In (key, op)
              (cached_operations clock utcnow coingecko_http coinmarketcap_http days)) :
  exists cached,
    eval (DataCache_get clock cache key) w = Ok cached /\
    if truthy cached then requests (exec op w) = requests w
    else exists rq, requests (exec op w) = requests w ++ [rq].
Proof.
  run_lookup key w w1 Hget Hf Hr.
  eexists. split; [unfold eval; rewrite Hget; reflexivity|].
  destruct (truthy _) eqn:Htruthy.
  - unfold exec. rewrite (operation_hit days key op w w1 _ Hop Hget Htruthy).
    exact Hr.
  - rewrite <- Hr. exact (operation_miss_request days key op w w1 _ Hop Hget Htruthy).
Qed.

(** X20. A cached value expires: when five minutes or more have passed since
    one of the six fetching methods stored the value it had fetched, the
    next call goes upstream again. *)
Theorem fetch_stale_refetches
    (days : Z) (key : string) (op : M json) (w : World) (cached r : json)
    (later_logs : list (level * string)) (later_requests : list request) (n : nat)
    (Hop : In (key, op)
              (cached_operations clock utcnow coingecko_http coinmarketcap_http days))
    (Hcached : eval (DataCache_get clock cache key) w = Ok cached)
    (Hfalsy : truthy cached = false)
    (Hresult : eval op w = Ok r)
    (Hsome : r <> JNull)
    (Hstale : (CACHE_EXPIRY_MINUTES * 60
               <= clock n - clock (Nat.pred (ticks (exec op w))))%Q) :
  let again := mkWorld (files (exec op w)) later_logs later_requests n in
  eval (DataCache_get clock cache key) again = Ok JNull /\
  exists rq, requests (exec op again) = later_requests ++ [rq].
Proof.
  intros again.
  run_lookup key w w1 Hget Hf Hr.
  unfold eval in Hcached. rewrite Hget in Hcached. simpl in Hcached.
  injection Hcached as Hcached. rewrite Hcached in Hget.
  destruct (operation_fetched days key op w w1 cached r Hop Hget Hfalsy Hresult Hsome)
    as [w' [Hrun [Htruthy Hfiles]]].
  assert (Hexec : exec op w = w') by (unfold exec; now rewrite Hrun).
  subst again. rewrite Hexec in *.
  assert (Hlook : files w' !! _get_cache_path cache key =
                  Some (Document (cache_entry (clock (Nat.pred (ticks w'))) r)))
    by (rewrite Hfiles; apply lookup_insert_eq).
  run_lookup key (mkWorld (files w') later_logs later_requests n) w2 Hget2 Hf2 Hr2.
  cbn [files ticks requests] in Hget2, Hf2, Hr2.
  rewrite Hlook in Hget2. simpl cache_read in Hget2.
  destruct (Qlt_le_dec _ _) as [Hlt|Hge] in Hget2.
  - exfalso. apply age_within_window in Hlt. apply (Qlt_not_le _ _ Hlt), Hstale.
  - split; [unfold eval; now rewrite Hget2|].
    destruct (operation_miss_request days key op _ w2 JNull Hop Hget2 eq_refl)
      as [rq Hrq].
    exists rq. now rewrite Hrq, Hr2.
Qed.

(** X23. Requests for 365 days or more share one cache entry: when a call of
    [get_historical_data] for 365 days or more has sent a request and
    returned a value, a call for any other number of days of 365 or more,
    made less than five minutes after the value was stored, returns that
    same value without sending a request or writing a file. *)
Theorem historical_long_requests_share_entry
    (days1 days2 : Z) (w : World) (r : json) (rq : request)
    (later_logs : list (level * string)) (later_requests : list request) (n : nat)
    (Hlong1 : 365 <= days1)
    (Hlong2 : 365 <= days2)
    (Hresult : eval (CoinGeckoFetcher_get_historical_data clock utcnow coingecko_http days1) w
               = Ok r)
    (Hsome : r <> JNull)
    (Hsent : requests (exec (CoinGeckoFetcher_get_historical_data clock utcnow
                               coingecko_http days1) w) = requests w ++ [rq])
    (Hfresh : (clock n - clock (Nat.pred (ticks (exec (CoinGeckoFetcher_get_historical_data
                                                         clock utcnow coingecko_http days1) w)))
               < CACHE_EXPIRY_MINUTES * 60)%Q) :
  let run := CoinGeckoFetcher_get_historical_data clock utcnow coingecko_http in
  let again := mkWorld (files (exec (run days1) w)) later_logs later_requests n in
  eval (run days2) again = Ok r /\
  requests (exec (run days2) again) = later_requests /\
  files (exec (run days2) again) = files (exec (run days1) w).
Proof.
  intros run again.
  assert (H1 : Z.min days1 365 = 365) by lia.
  assert (H2 : Z.min days2 365 = 365) by lia.
  set (key := historical_cache_key 365).
  assert (Hop1 : In (key, run days1)
                    (cached_operations clock utcnow coingecko_http coinmarketcap_http days1))
    by (unfold cached_operations; rewrite H1; right; right; left; reflexivity).
  assert (Hop2 : In (key, run days2)
                    (cached_operations clock utcnow coingecko_http coinmarketcap_http days2))
    by (unfold cached_operations; rewrite H2; right; right; left; reflexivity).
  run_lookup key w w1 Hget Hf Hr.
  destruct (truthy (cache_read (clock (ticks w)) (files w !! _get_cache_path cache key)))
    eqn:Htruthy.
  { exfalso. pose proof (operation_hit days1 key _ w w1 _ Hop1 Hget Htruthy) as Hrun.
    fold run in Hsent. unfold exec in Hsent. rewrite Hrun in Hsent. simpl in Hsent.
    rewrite Hr in Hsent. apply (f_equal (@length _)) in Hsent.
    rewrite length_app in Hsent. simpl in Hsent. lia. }
  destruct (operation_fetched days1 key _ w w1 _ r Hop1 Hget Htruthy Hresult Hsome)
    as [w' [Hrun [Htrue Hfiles]]].
  assert (Hexec : exec (run days1) w = w') by (unfold exec; now rewrite Hrun).
  fold run in Hfresh. unfold again. rewrite Hexec in *.
  assert (Hlook : files w' !! _get_cache_path cache key =
                  Some (Document (cache_entry (clock (Nat.pred (ticks w'))) r)))
    by (rewrite Hfiles; apply lookup_insert_eq).
  run_lookup key (mkWorld (files w') later_logs later_requests n) w2 Hget2 Hf2 Hr2.
  cbn [files ticks requests] in Hget2, Hf2, Hr2.
  rewrite Hlook in Hget2. simpl cache_read in Hget2.
  destruct (Qlt_le_dec _ _) as [Hlt|Hge] in Hget2.
  - pose proof (operation_hit days2 key _ _ w2 r Hop2 Hget2 Htrue) as Hrun2.
    unfold eval, exec. rewrite Hrun2. simpl. rewrite Hf2, Hr2. repeat split.
  - exfalso. apply age_within_window in Hfresh. apply (Qlt_not_le _ _ Hfresh), Hge.
Qed.

(** X17. The whole of an OHLCV request for a day-scale label, in a cache
    directory that holds neither the entry of the label nor the historical
    one: [get_ohlcv] asks upstream for 1, 7 or 30 days according to the
    label, and from an upstream object whose prices are points that
    [datetime.fromtimestamp] renders it returns one candle per point under
    the key [ohlcv], with the label under [timeframe], and caches the
    result under the key of the label. *)
Theorem get_ohlcv_day_pipeline
    (label : string) (days : Z) (w : World) (body : list (string * json))
    (points volumes : list (Q * Q)) (render : Q -> string)
    (Hlabel : In (label, days) [("1d", 1); ("7d", 7); ("30d", 30)])
    (Hmiss : files w !! _get_cache_path cache ("ohlcv_" +:+ label) = None)
    (Hmiss' : files w !! _get_cache_path cache (historical_cache_key days) = None)
    (Hup : coingecko_http (ticks w)
             (COINGECKO_BASE_URL +:+ "/coins/bitcoin/market_chart",
              historical_params days) = Some (JDict body))
    (Hprices : assoc "prices" body = Some (JList (map point_json points)))
    (Hvolumes : match assoc "volumes" body with Some v => v | None => JList [] end
                = JList (map point_json volumes))
    (Hrender : forall p, In p points ->
                 fromtimestamp (fst p / 1000)%Q = Ok (render (fst p))) :
  let run := DataFetcher_get_ohlcv clock utcnow fromtimestamp coingecko_http label in
  exists candles,
    let result := JDict [ ("source", JStr "coingecko");
                          ("timeframe", JStr label);
                          ("timestamp", JStr (utcnow (3 + ticks w)%nat));
                          ("ohlcv", JList candles) ] in
    eval run w = Ok result /\
    length candles = length points /\
    (forall i p, nth_error points i = Some p ->
       nth_error candles i =
       Some (uniform_candle (render (fst p)) (snd p) (volume_at volumes i))) /\
    requests (exec run w) =
      requests w ++ [(COINGECKO_BASE_URL +:+ "/coins/bitcoin/market_chart",
                      historical_params days)] /\
    files (exec run w) !! _get_cache_path cache ("ohlcv_" +:+ label) =
      Some (Document (cache_entry (clock (4 + ticks w)%nat) result)).
Proof.
  intros run.
  destruct (ohlcv_loop_points fromtimestamp render volumes points Hrender 0%nat [])
    as [cs [Hloop [Hlen Hnth]]].
  exists cs. intros result.
  assert (Htable : exists m, assoc label TIMEFRAMES = Some m)
    by (destruct Hlabel as [E|[E|[E|[]]]]; injection E as <- <-; eexists; reflexivity).
  assert (Hday : existsb (String.eqb label) ["1d"; "7d"; "30d"] = true)
    by (destruct Hlabel as [E|[E|[E|[]]]]; injection E as <- <-; reflexivity).
  assert (Hdays : match assoc label [("1d", 1); ("7d", 7); ("30d", 30)] with
                  | Some d => d
                  | None => 1
                  end = days)
    by (destruct Hlabel as [E|[E|[E|[]]]]; injection E as <- <-; reflexivity).
  assert (Hmin : Z.min days 365 = days)
    by (destruct Hlabel as [E|[E|[E|[]]]]; injection E as <- <-; reflexivity).
  assert (Hproc : forall a b c,
    _process_historical_to_ohlcv fromtimestamp
      (JDict [ ("source", a); ("timestamp", b); ("days", c);
               ("prices",
                match assoc "prices" body with Some v => v | None => JList [] end);
               ("market_caps",
                match assoc "market_caps" body with Some v => v | None => JList [] end);
               ("volumes",
                match assoc "volumes" body with Some v => v | None => JList [] end) ])
    = Ok (JList cs)).
  { intros a b c. unfold _process_historical_to_ohlcv, py_get.
    cbn [assoc String.eqb Ascii.eqb Bool.eqb].
    rewrite Hprices, Hvolumes. cbn [py_iter]. now rewrite Hloop. }
  rewrite <- Hmin in Hmiss', Hup.
  assert (Hrun : exists wf,
            run w = (Ok result, wf) /\
            requests wf =
              requests w ++ [(COINGECKO_BASE_URL +:+ "/coins/bitcoin/market_chart",
                              historical_params (Z.min days 365))] /\
            files wf !! _get_cache_path cache ("ohlcv_" +:+ label) =
              Some (Document (cache_entry (clock (4 + ticks w)%nat) result))).
  { unfold run, result, DataFetcher_get_ohlcv, TimeframeDataHandler_get_ohlcv_data.
    destruct Htable as [m ->]. rewrite Hday, Hdays.
    unfold bind at 1.
    rewrite (DataCache_get_absent clock cache _ w Hmiss).
    cbn [truthy]. unfold try_except at 1, bind at 1.
    rewrite (historical_fetch_run days w body Hmiss' Hup).
    cbn [truthy]. unfold bind at 1, datetime_utcnow_isoformat at 1.
    unfold bind at 1, lift at 1. rewrite Hproc.
    unfold bind at 1. rewrite DataCache_set_run.
    eexists. (split; [reflexivity|]). cbn [requests files].
    (split; [reflexivity|]). apply lookup_insert_eq. }
  destruct Hrun as [wf [Hrun [Hreq Hfile]]].
  unfold eval, exec. rewrite Hrun. cbn [fst snd].
  rewrite Hmin in Hreq.
  (split; [reflexivity|]). split; [exact Hlen|]. split; [|split; [exact Hreq|exact Hfile]].
  intros i p Hp. now rewrite (Hnth i p Hp).
Qed.

End FetcherMore.

(** * Further properties of [_process_historical_to_ohlcv] *)

Section ProcessMore.

Variable fromtimestamp : Q -> result string.

Lemma ohlcv_of_item_ok (volumes : json) (i : nat) (item c : json) :
  ohlcv_of_item fromtimestamp volumes i item = Ok c ->
  exists t price q stamp volume,
    py_unpack2 item = Ok (t, price) /\
    py_number t = Ok q /\
    fromtimestamp (q / 1000)%Q = Ok stamp /\
    c = JDict [ ("timestamp", JStr stamp); ("open", price); ("high", price);
                ("low", price); ("close", price); ("volume", volume) ].
Proof.
  unfold ohlcv_of_item.
  destruct (py_unpack2 item) as [[t price]|]; [|discriminate].
  destruct (py_len volumes) as [n|]; [|discriminate].
  destruct (if Nat.ltb i n then _ else _) as [volume|]; [|discriminate].
  destruct (py_number t) as [q|] eqn:Hq; [|discriminate].
  destruct (fromtimestamp (q / 1000)%Q) as [stamp|] eqn:Hstamp; [|discriminate].
  intros [= <-]. now exists t, price, q, stamp, volume.
Qed.

Lemma ohlcv_loop_ok (volumes : json) (items : list json) :
  forall (i : nat) (acc out : list json),
    ohlcv_loop fromtimestamp volumes i items acc = Ok out ->
    exists cs,
      out = acc ++ cs /\ length cs = length items /\
      Forall2 (fun item c =>
                 exists t price q stamp volume,
                   py_unpack2 item = Ok (t, price) /\
                   py_number t = Ok q /\
                   fromtimestamp (q / 1000)%Q = Ok stamp /\
                   c = JDict [ ("timestamp", JStr stamp); ("open", price);
                               ("high", price); ("low", price); ("close", price);
                               ("volume", volume) ])
              items cs.
Proof.
  induction items as [|item items IH]; intros i acc out; simpl.
  - intros [= <-]. exists []. rewrite app_nil_r. repeat split. constructor.
  - destruct (ohlcv_of_item fromtimestamp volumes i item) as [c|] eqn:Hitem;
      [|discriminate].
    intros Hrun. apply IH in Hrun as [cs [-> [Hlen Hall]]].
    exists (c :: cs). rewrite <- app_assoc. split; [reflexivity|].
    split; [simpl; now rewrite Hlen|].
    constructor; [now apply ohlcv_of_item_ok in Hitem|exact Hall].
Qed.

(** X18. [_process_historical_to_ohlcv] converts all the items of [prices] or
    none: when it returns, it returns as many candles as there are items,
    each item is a pair whose first component is a number that
    [datetime.fromtimestamp] renders, and the candle of an item carries the
    second component, whatever it is, as open, high, low and close. An item
    of another shape makes the call raise. *)
Theorem process_historical_all_or_nothing
    (d : list (string * json)) (items : list json) (out : json)
    (Hprices : assoc "prices" d = Some (JList items))
    (Hout : _process_historical_to_ohlcv fromtimestamp (JDict d) = Ok out) :
  exists candles,
    out = JList candles /\
    length candles = length items /\
    Forall2 (fun item c =>
               exists t price q stamp volume,
                 py_unpack2 item = Ok (t, price) /\
                 py_number t = Ok q /\
                 fromtimestamp (q / 1000)%Q = Ok stamp /\
                 c = JDict [ ("timestamp", JStr stamp); ("open", price);
                             ("high", price); ("low", price); ("close", price);
                             ("volume", volume) ])
            items candles.
Proof.
  revert Hout. unfold _process_historical_to_ohlcv, py_get. rewrite Hprices.
  cbn [py_iter].
  destruct (ohlcv_loop fromtimestamp _ 0 items []) as [cs|] eqn:Hloop; [|discriminate].
  intros [= <-]. apply ohlcv_loop_ok in Hloop as [cs' [-> [Hlen Hall]]].
  exists cs'. repeat split; assumption.
Qed.

End ProcessMore.

(** * Runs of the further properties on concrete inputs *)

(** A run of X2 on three points under the label 1h. *)
Lemma aggregate_count_total_witness :
  assoc "1h" TIMEFRAMES = Some 60 /\
  exists candles,
    eval (aggregate_to_timeframe [(0, Finite 100); (1800, Finite 110); (3600, Finite 90)] "1h")
         (mkWorld ∅ [] [] 0) = Ok candles /\
    total_count candles = 3.
Proof.
  split; [reflexivity|].
  destruct (aggregate_count_total [(0, Finite 100); (1800, Finite 110); (3600, Finite 90)] "1h" 60
              (mkWorld ∅ [] [] 0) eq_refl) as [candles [Hrun [Htotal _]]].
  exists candles. split; [exact Hrun|exact Htotal].
Defined.

(** A run of X3 on two points and their swap. *)
Lemma aggregate_order_independent_witness :
  Permutation [(0, Finite 100); (1800, Finite 110)] [(1800, Finite 110); (0, Finite 100)] /\
  exists candles candles',
    eval (aggregate_to_timeframe [(0, Finite 100); (1800, Finite 110)] "1h")
         (mkWorld ∅ [] [] 0) = Ok candles /\
    eval (aggregate_to_timeframe [(1800, Finite 110); (0, Finite 100)] "1h")
         (mkWorld ∅ [] [] 0) = Ok candles' /\
    map timestamp candles = map timestamp candles'.
Proof.
  assert (Hperm : Permutation [(0, Finite 100); (1800, Finite 110)] [(1800, Finite 110); (0, Finite 100)])
    by apply perm_swap.
  split; [exact Hperm|].
  destruct (aggregate_order_independent _ _ "1h" 60 (mkWorld ∅ [] [] 0) eq_refl Hperm)
    as [candles [candles' [H1 [H2 [H3 _]]]]].
  exists candles, candles'. repeat split; assumption.
Defined.

(** A run of X4 on three points in the order of their timestamps. *)
Lemma aggregate_chronological_witness :
  StronglySorted chronological [(0, Finite 100); (1800, Finite 110); (3600, Finite 90)] /\
  exists candles,
    eval (aggregate_to_timeframe [(0, Finite 100); (1800, Finite 110); (3600, Finite 90)] "1h")
         (mkWorld ∅ [] [] 0) = Ok candles.
Proof.
  assert (Hs : StronglySorted chronological [(0, Finite 100); (1800, Finite 110); (3600, Finite 90)])
    by (repeat constructor; unfold chronological; simpl; lia).
  split; [exact Hs|].
  destruct (aggregate_chronological _ "1h" 60 (mkWorld ∅ [] [] 0) eq_refl Hs)
    as [candles [Hrun _]].
  now exists candles.
Defined.

(** A run of X7 on a cache file that is not JSON. *)
Lemma cache_get_unreadable_witness :
  exists e w',
    DataCache_get (fun _ => 0%Q) cache "k"
      (mkWorld {[ _get_cache_path cache "k" := Garbage ]} [] [] 0) = (Ok JNull, w') /\
    logs w' = [(WARNING, "Error reading cache: " +:+ str_exn e)].
Proof.
  destruct (cache_get_unreadable (fun _ => 0%Q) cache "k"
              (mkWorld {[ _get_cache_path cache "k" := Garbage ]} [] [] 0) Garbage
              (lookup_singleton_eq _ _) I) as [e [w' [Hrun [_ [_ Hlogs]]]]].
  exists e, w'. split; [exact Hrun|exact Hlogs].
Defined.

(** A run of X12: the current price, found in the cache. *)
Lemma fetch_cache_hit_witness :
  eval (CoinGeckoFetcher_get_current_price (fun _ => 0%Q) (fun _ => "")
          (fun _ _ => None))
       (exec (DataCache_set (fun _ => 0%Q) cache "coingecko_current_price" (JStr "v"))
             (mkWorld ∅ [] [] 0)) = Ok (JStr "v").
Proof.
  assert (Hcached :
    eval (DataCache_get (fun _ => 0%Q) cache "coingecko_current_price")
         (exec (DataCache_set (fun _ => 0%Q) cache "coingecko_current_price" (JStr "v"))
               (mkWorld ∅ [] [] 0)) = Ok (JStr "v"))
    by (vm_compute; reflexivity).
  destruct (fetch_cache_hit (fun _ => 0%Q) (fun _ => "") (fun _ _ => None)
              (fun _ _ => None) 90 "coingecko_current_price" _ _ (JStr "v")
              (or_introl eq_refl) Hcached eq_refl) as [Hrun _].
  unfold eval. now rewrite Hrun.
Defined.

(** A run of X13: the current price, with an empty cache directory and the
    upstream down. *)
Lemma fetch_upstream_failure_witness :
  eval (CoinGeckoFetcher_get_current_price (fun _ => 0%Q) (fun _ => "")
          (fun _ _ => None))
       (mkWorld ∅ [] [] 0) = Ok JNull.
Proof.
  exact (proj1 (fetch_upstream_failure (fun _ => 0%Q) (fun _ => "") (fun _ _ => None)
                  (fun _ _ => None) 90 "coingecko_current_price" _
                  (mkWorld ∅ [] [] 0) JNull
                  (or_introl eq_refl) eq_refl eq_refl (fun _ => conj eq_refl eq_refl))).
Defined.

(** A run of X14: the current price, with an upstream body that is a list. *)
Lemma fetch_malformed_body_raises_witness :
  eval (CoinGeckoFetcher_get_current_price (fun _ => 0%Q) (fun _ => "")
          (fun _ _ => Some (JList [])))
       (mkWorld ∅ [] [] 0) = Raise AttributeError.
Proof.
  assert (Hshape : forall d, JList [] <> JDict d) by (intros d; discriminate).
  exact (proj1 (fetch_malformed_body_raises (fun _ => 0%Q) (fun _ => "")
                  (fun _ _ => Some (JList [])) (fun _ _ => Some (JList []))
                  90 "coingecko_current_price" _ (mkWorld ∅ [] [] 0) JNull (JList [])
                  (or_introl eq_refl) eq_refl eq_refl
                  (fun _ => conj eq_refl eq_refl) Hshape)).
Defined.

(** A run of X15: the current price is fetched, and a second call finds it
    in the cache. *)
Lemma fetch_then_cached_witness :
  eval (CoinGeckoFetcher_get_current_price (fun _ => 0%Q) (fun _ => "")
          (fun _ _ => Some (JDict [("bitcoin", JDict [("usd", JNum 1)])])))
       (mkWorld
          (files (exec (CoinGeckoFetcher_get_current_price (fun _ => 0%Q) (fun _ => "")
                          (fun _ _ => Some (JDict [("bitcoin", JDict [("usd", JNum 1)])])))
                       (mkWorld ∅ [] [] 0)))
          [] [] 5) =
  Ok (JDict [ ("source", JStr "coingecko"); ("timestamp", JStr "");
              ("data", JDict [("usd", JNum 1)]) ]).
Proof.
  assert (Hsome : JDict [ ("source", JStr "coingecko"); ("timestamp", JStr "");
                          ("data", JDict [("usd", JNum 1)]) ] <> JNull)
    by discriminate.
  exact (proj1 (proj2 (fetch_then_cached (fun _ => 0%Q) (fun _ => "")
                  (fun _ _ => Some (JDict [("bitcoin", JDict [("usd", JNum 1)])]))
                  (fun _ _ => None) 90 "coingecko_current_price" _
                  (mkWorld ∅ [] [] 0) JNull _ [] [] 5%nat
                  (or_introl eq_refl) eq_refl eq_refl eq_refl Hsome eq_refl))).
Defined.

(** A run of X19 in an empty cache directory. *)
Lemma fetch_one_request_on_miss_witness :
  exists cached,
    eval (DataCache_get (fun _ => 0%Q) cache "coingecko_current_price")
         (mkWorld ∅ [] [] 0) = Ok cached /\
    if truthy cached
    then requests (exec (CoinGeckoFetcher_get_current_price (fun _ => 0%Q) (fun _ => "")
                           (fun _ _ => None)) (mkWorld ∅ [] [] 0)) = []
    else exists rq,
        requests (exec (CoinGeckoFetcher_get_current_price (fun _ => 0%Q) (fun _ => "")
                          (fun _ _ => None)) (mkWorld ∅ [] [] 0)) = [] ++ [rq].
Proof.
  exact (fetch_one_request_on_miss (fun _ => 0%Q) (fun _ => "") (fun _ _ => None)
           (fun _ _ => None) 90 "coingecko_current_price" _ (mkWorld ∅ [] [] 0)
           (or_introl eq_refl)).
Defined.

(** A run of X20: the current price is fetched at time 0, and a call at time
    1000 goes upstream again. *)
Lemma fetch_stale_refetches_witness :
  exists rq,
    requests
      (exec (CoinGeckoFetcher_get_current_price
               (fun n => if Nat.ltb n 4 then 0%Q else 1000%Q) (fun _ => "")
               (fun _ _ => Some (JDict [("bitcoin", JDict [("usd", JNum 1)])])))
            (mkWorld
               (files (exec (CoinGeckoFetcher_get_current_price
                               (fun n => if Nat.ltb n 4 then 0%Q else 1000%Q)
                               (fun _ => "")
                               (fun _ _ => Some (JDict [("bitcoin",
                                                         JDict [("usd", JNum 1)])])))
                            (mkWorld ∅ [] [] 0)))
               [] [] 10)) = [] ++ [rq].
Proof.
  assert (Hsome : JDict [ ("source", JStr "coingecko"); ("timestamp", JStr "");
                          ("data", JDict [("usd", JNum 1)]) ] <> JNull)
    by discriminate.
  assert (Hstale :
    (CACHE_EXPIRY_MINUTES * 60 <=
     (fun n => if Nat.ltb n 4 then 0%Q else 1000%Q) 10%nat -
     (fun n => if Nat.ltb n 4 then 0%Q else 1000%Q)
       (Nat.pred (ticks (exec (CoinGeckoFetcher_get_current_price
                                 (fun n => if Nat.ltb n 4 then 0%Q else 1000%Q)
                                 (fun _ => "")
                                 (fun _ _ => Some (JDict [("bitcoin",
                                                           JDict [("usd", JNum 1)])])))
                              (mkWorld ∅ [] [] 0)))))%Q)
    by (vm_compute; discriminate).
  exact (proj2 (fetch_stale_refetches (fun n => if Nat.ltb n 4 then 0%Q else 1000%Q)
                  (fun _ => "")
                  (fun _ _ => Some (JDict [("bitcoin", JDict [("usd", JNum 1)])]))
                  (fun _ _ => None) 90 "coingecko_current_price" _
                  (mkWorld ∅ [] [] 0) JNull _ [] [] 10%nat
                  (or_introl eq_refl) eq_refl eq_refl eq_refl Hsome Hstale)).
Defined.

(** A run of X23: the series fetched for 400 days answers a request for 1000
    days. *)
Lemma historical_long_requests_share_entry_witness :
  365 <= 400 /\ 365 <= 1000 /\
  eval (CoinGeckoFetcher_get_historical_data (fun _ => 0%Q) (fun _ => "")
          (fun _ _ => Some (JDict [])) 1000)
       (mkWorld
          (files (exec (CoinGeckoFetcher_get_historical_data (fun _ => 0%Q) (fun _ => "")
                          (fun _ _ => Some (JDict [])) 400)
                       (mkWorld ∅ [] [] 0)))
          [] [] 5) =
  Ok (JDict [ ("source", JStr "coingecko"); ("timestamp", JStr "");
              ("days", JNum 365); ("prices", JList []);
              ("market_caps", JList []); ("volumes", JList []) ]).
Proof.
  assert (Hlong1 : 365 <= 400) by lia.
  assert (Hlong2 : 365 <= 1000) by lia.
  split; [exact Hlong1|]. split; [exact Hlong2|].
  assert (Hresult :
    eval (CoinGeckoFetcher_get_historical_data (fun _ => 0%Q) (fun _ => "")
            (fun _ _ => Some (JDict [])) 400) (mkWorld ∅ [] [] 0) =
    Ok (JDict [ ("source", JStr "coingecko"); ("timestamp", JStr "");
                ("days", JNum 365); ("prices", JList []);
                ("market_caps", JList []); ("volumes", JList []) ]))
    by (vm_compute; reflexivity).
  assert (Hsome : JDict [ ("source", JStr "coingecko"); ("timestamp", JStr "");
                          ("days", JNum 365); ("prices", JList []);
                          ("market_caps", JList []); ("volumes", JList []) ] <> JNull)
    by discriminate.
  assert (Hsent :
    requests (exec (CoinGeckoFetcher_get_historical_data (fun _ => 0%Q) (fun _ => "")
                      (fun _ _ => Some (JDict [])) 400) (mkWorld ∅ [] [] 0)) =
    [] ++ [(COINGECKO_BASE_URL +:+ "/coins/bitcoin/market_chart",
            [ ("vs_currency", JStr "usd"); ("days", JNum 365);
              ("interval", JStr "daily") ])])
    by (vm_compute; reflexivity).
  assert (Hfresh :
    ((fun _ : nat => 0%Q) 5%nat -
     (fun _ : nat => 0%Q)
       (Nat.pred (ticks (exec (CoinGeckoFetcher_get_historical_data (fun _ => 0%Q)
                                 (fun _ => "") (fun _ _ => Some (JDict [])) 400)
                              (mkWorld ∅ [] [] 0))))
     < CACHE_EXPIRY_MINUTES * 60)%Q)
    by (vm_compute; reflexivity).
  exact (proj1 (historical_long_requests_share_entry (fun _ => 0%Q) (fun _ => "")
                  (fun _ _ => Some (JDict [])) (fun _ _ => None)
                  400 1000 (mkWorld ∅ [] [] 0) _ _ [] [] 5%nat
                  Hlong1 Hlong2 Hresult Hsome Hsent Hfresh)).
Defined.

(** A run of X17: one day of history with a single point. *)
Lemma get_ohlcv_day_pipeline_witness :
  exists candles,
    eval (DataFetcher_get_ohlcv (fun _ => 0%Q) (fun _ => "now")
            (fun _ => Ok "2023-11-14T22:13:20")
            (fun _ _ => Some (JDict [("prices",
                                      JList [JList [JNum 1700000000000; JNum 50000]])]))
            "1d")
         (mkWorld ∅ [] [] 0) =
    Ok (JDict [ ("source", JStr "coingecko"); ("timeframe", JStr "1d");
                ("timestamp", JStr "now"); ("ohlcv", JList candles) ]) /\
    length candles = 1%nat.
Proof.
  destruct (get_ohlcv_day_pipeline (fun _ => 0%Q) (fun _ => "now")
              (fun _ => Ok "2023-11-14T22:13:20")
              (fun _ _ => Some (JDict [("prices",
                                        JList [JList [JNum 1700000000000; JNum 50000]])]))
              "1d" 1 (mkWorld ∅ [] [] 0)
              [("prices", JList [JList [JNum 1700000000000; JNum 50000]])]
              [(1700000000000%Q, 50000%Q)] [] (fun _ => "2023-11-14T22:13:20")
              (or_introl eq_refl) (lookup_empty _) (lookup_empty _)
              eq_refl eq_refl eq_refl (fun _ _ => eq_refl))
    as [candles [Hrun [Hlen _]]].
  exists candles. split; [exact Hrun|exact Hlen].
Defined.

(** A run of X18 on a series of one point. *)
Lemma process_historical_all_or_nothing_witness :
  exists candles,
    JList [uniform_candle "s" 50000 0] = JList candles /\ length candles = 1%nat.
Proof.
  destruct (process_historical_all_or_nothing (fun _ => Ok "s")
              [("prices", JList [JList [JNum 1700000000000; JNum 50000]])]
              [JList [JNum 1700000000000; JNum 50000]]
              (JList [uniform_candle "s" 50000 0]) eq_refl eq_refl)
    as [candles [Hout [Hlen _]]].
  exists candles. split; [exact Hout|exact Hlen].
Defined.

(** * Further properties of the OHLCV request *)

Section OhlcvMore.

Variable clock : nat -> Q.
Variable utcnow : nat -> string.
Variable fromtimestamp : Q -> result string.
Variable coingecko_http : nat -> request -> option json.

(** X21. An OHLCV request for a day-scale label whose upstream series starts
    with an item that is not a pair does not raise: [get_ohlcv] returns
    [None] and logs the error. The historical answer has been cached by then
    and stays cached; no entry is written for the label. *)
Theorem get_ohlcv_malformed_series
    (label : string) (days : Z) (w : World) (body : list (string * json))
    (item : json) (items : list json) (e : exn)
    (Hlabel : In (label, days) [("1d", 1); ("7d", 7); ("30d", 30)])
    (Hmiss : files w !! _get_cache_path cache ("ohlcv_" +:+ label) = None)
    (Hmiss' : files w !! _get_cache_path cache (historical_cache_key days) = None)
    (Hup : coingecko_http (ticks w)
             (COINGECKO_BASE_URL +:+ "/coins/bitcoin/market_chart",
              historical_params days) = Some (JDict body))
    (Hprices : assoc "prices" body = Some (JList (item :: items)))
    (Hitem : py_unpack2 item = Raise e) :
  let run := DataFetcher_get_ohlcv clock utcnow fromtimestamp coingecko_http label in
  eval run w = Ok JNull /\
  (exists earlier,
     logs (exec run w) =
     earlier ++ [(ERROR, "Error processing OHLCV data: " +:+ str_exn e)]) /\
  exists entry,
    files (exec run w) =
    <[_get_cache_path cache (historical_cache_key days) := Document entry]> (files w).
Proof.
  intros run.
  assert (Htable : exists m, assoc label TIMEFRAMES = Some m)
    by (destruct Hlabel as [E|[E|[E|[]]]]; injection E as <- <-; eexists; reflexivity).
  assert (Hday : existsb (String.eqb label) ["1d"; "7d"; "30d"] = true)
    by (destruct Hlabel as [E|[E|[E|[]]]]; injection E as <- <-; reflexivity).
  assert (Hdays : match assoc label [("1d", 1); ("7d", 7); ("30d", 30)] with
                  | Some d => d
                  | None => 1
                  end = days)
    by (destruct Hlabel as [E|[E|[E|[]]]]; injection E as <- <-; reflexivity).
  assert (Hmin : Z.min days 365 = days)
    by (destruct Hlabel as [E|[E|[E|[]]]]; injection E as <- <-; reflexivity).
  assert (Hproc : forall a b c,
    _process_historical_to_ohlcv fromtimestamp
      (JDict [ ("source", a); ("timestamp", b); ("days", c);
               ("prices",
                match assoc "prices" body with Some v => v | None => JList [] end);
               ("market_caps",
                match assoc "market_caps" body with Some v => v | None => JList [] end);
               ("volumes",
                match assoc "volumes" body with Some v => v | None => JList [] end) ])
    = Raise e).
  { intros a b c. unfold _process_historical_to_ohlcv, py_get.
    cbn [assoc String.eqb Ascii.eqb Bool.eqb].
    rewrite Hprices. cbn [py_iter ohlcv_loop]. unfold ohlcv_of_item.
    now rewrite Hitem. }
  rewrite <- Hmin in Hmiss', Hup.
  assert (Hrun : exists wf earlier entry,
            run w = (Ok JNull, wf) /\
            logs wf = earlier ++ [(ERROR, "Error processing OHLCV data: " +:+ str_exn e)] /\
            files wf =
              <[_get_cache_path cache (historical_cache_key (Z.min days 365))
                  := Document entry]> (files w)).
  { unfold run, DataFetcher_get_ohlcv, TimeframeDataHandler_get_ohlcv_data.
    destruct Htable as [m ->]. rewrite Hday, Hdays.
    unfold bind at 1.
    rewrite (DataCache_get_absent clock cache _ w Hmiss).
    cbn [truthy]. unfold try_except at 1, bind at 1.
    rewrite (historical_fetch_run clock utcnow coingecko_http days w body Hmiss' Hup).
    cbn [truthy]. unfold bind at 1, datetime_utcnow_isoformat at 1.
    unfold bind at 1, lift at 1. rewrite Hproc.
    cbn [is_Exception].
    eexists _, _, _. split; [reflexivity|]. cbn [logs files tick].
    split; reflexivity. }
  destruct Hrun as [wf [earlier [entry [Hrun [Hlogs Hfiles]]]]].
  unfold eval, exec. rewrite Hrun. cbn [fst snd]. rewrite Hmin in Hfiles.
  split; [reflexivity|]. split; [now exists earlier|now exists entry].
Qed.

(** X22. For every label [get_supported_timeframes] lists, [get_ohlcv]
    returns what the cache holds under the key of the label when that is
    fresh and true, without sending a request or writing a file. *)
Theorem get_ohlcv_cache_hit (timeframe : string) (w : World) (cached : json)
    (Hlabel : In timeframe DataFetcher_get_supported_timeframes)
    (Hcached : eval (DataCache_get clock cache ("ohlcv_" +:+ timeframe)) w = Ok cached)
    (Htruthy : truthy cached = true) :
  let run := DataFetcher_get_ohlcv clock utcnow fromtimestamp coingecko_http timeframe in
  eval run w = Ok cached /\
  requests (exec run w) = requests w /\
  files (exec run w) = files w.
Proof.
  intros run. apply assoc_Some_iff in Hlabel as [m Hm].
  destruct (DataCache_get_run clock cache ("ohlcv_" +:+ timeframe) w)
    as [w1 [Hget [Hf Hr]]].
  unfold eval in Hcached. rewrite Hget in Hcached. simpl in Hcached.
  injection Hcached as Hcached. rewrite Hcached in Hget.
  assert (Hrun : run w = (Ok cached, w1)).
  { unfold run, DataFetcher_get_ohlcv, TimeframeDataHandler_get_ohlcv_data.
    rewrite Hm. unfold bind at 1. now rewrite Hget, Htruthy. }
  unfold eval, exec. rewrite Hrun. simpl. repeat split; assumption.
Qed.

End OhlcvMore.

(** A run of X21: one day of history whose first item is a single number. *)
Lemma get_ohlcv_malformed_series_witness :
  eval (DataFetcher_get_ohlcv (fun _ => 0%Q) (fun _ => "now") (fun _ => Ok "s")
          (fun _ _ => Some (JDict [("prices", JList [JNum 1])])) "1d")
       (mkWorld ∅ [] [] 0) = Ok JNull.
Proof.
  exact (proj1 (get_ohlcv_malformed_series (fun _ => 0%Q) (fun _ => "now")
                  (fun _ => Ok "s")
                  (fun _ _ => Some (JDict [("prices", JList [JNum 1])]))
                  "1d" 1 (mkWorld ∅ [] [] 0) [("prices", JList [JNum 1])]
                  (JNum 1) [] TypeError
                  (or_introl eq_refl) (lookup_empty _) (lookup_empty _)
                  eq_refl eq_refl eq_refl)).
Defined.

(** A run of X22: an entry stored under the key of the label 7d. *)
Lemma get_ohlcv_cache_hit_witness :
  eval (DataFetcher_get_ohlcv (fun _ => 0%Q) (fun _ => "") (fun _ => Ok "")
          (fun _ _ => None) "7d")
       (exec (DataCache_set (fun _ => 0%Q) cache "ohlcv_7d" (JStr "v"))
             (mkWorld ∅ [] [] 0)) = Ok (JStr "v").
Proof.
  assert (Hlabel : In "7d" DataFetcher_get_supported_timeframes)
    by (unfold DataFetcher_get_supported_timeframes; simpl; tauto).
  assert (Hcached :
    eval (DataCache_get (fun _ => 0%Q) cache ("ohlcv_" +:+ "7d"))
         (exec (DataCache_set (fun _ => 0%Q) cache "ohlcv_7d" (JStr "v"))
               (mkWorld ∅ [] [] 0)) = Ok (JStr "v"))
    by (vm_compute; reflexivity).
  exact (proj1 (get_ohlcv_cache_hit (fun _ => 0%Q) (fun _ => "") (fun _ => Ok "")
                  (fun _ _ => None) "7d" _ (JStr "v") Hlabel Hcached eq_refl)).
Defined.
